(** * Salus: the per-operator execution task (ExecTask)

    A shallow embedding of [src/oplibraries/tensorflow/v2/exectask.cpp]:
    construction, resource estimation ([estimatedUsage]), binding to a
    device ([prepare], [releasePreAllocation]) and the execution cycle
    ([run], [maybeMemoryFailure], [finish]); and of the priority semaphore
    of [src/utils/threadutils.h].

    Conventions of the embedding.
    - Member functions run in a small monad over the task's fields that
      also records, in program order, every call the task makes on a
      collaborator (callbacks, executor state, session tracker, devices,
      resource monitor, WARN/ERR log lines).  TRACE/DEBUG lines and the
      [nodestats] timing calls do not influence control flow and are left
      out.
    - What a collaborator answers is an input, gathered in one record per
      member function ([EstimateEnv], [PrepareEnv], [RunEnv]).
    - A failed [assert] and undefined behaviour end the computation with a
      [Fault]; [NDEBUG] says whether assertions are compiled out.
    - [int] is 32 bits wide, [size_t] and [uint64_t] are 64 bits wide.  The
      failure counter itself is kept as an unbounded integer.
    - Quantities stored in a resource map are rationals.  The conversion of
      an integer to [double] rounds as the hardware does; sums, products and
      quotients of quantities are then taken in the rationals, which agrees
      with [double] as long as the results are integers below [2^53] or are
      scaled by a power of two. *)

From stdpp Require Import base numbers gmap list strings pretty.
From Stdlib Require Import ZArith QArith Qcanon Lia.

Local Open Scope Z_scope.

(** ** Devices, resource tags, resource maps *)

Inductive DeviceType := CPU | GPU.

Record DeviceSpec := mkDeviceSpec { type : DeviceType; id : Z }.

Inductive ResourceType := MEMORY.

Record ResourceTag := mkResourceTag { rtype : ResourceType; device : DeviceSpec }.

#[global] Instance DeviceType_eq_dec : EqDecision DeviceType.
Proof. solve_decision. Defined.
#[global] Instance DeviceSpec_eq_dec : EqDecision DeviceSpec.
Proof. solve_decision. Defined.
#[global] Instance ResourceType_eq_dec : EqDecision ResourceType.
Proof. solve_decision. Defined.
#[global] Instance ResourceTag_eq_dec : EqDecision ResourceTag.
Proof. solve_decision. Defined.

#[global] Instance DeviceType_countable : Countable DeviceType.
Proof.
  refine (inj_countable' (fun t => match t with CPU => false | GPU => true end)
                         (fun b => if b then GPU else CPU) _).
  by intros [].
Defined.
#[global] Instance DeviceSpec_countable : Countable DeviceSpec.
Proof.
  refine (inj_countable' (fun d => (type d, id d))
                         (fun p => mkDeviceSpec p.1 p.2) _).
  by intros [].
Defined.
#[global] Instance ResourceType_countable : Countable ResourceType.
Proof.
  refine (inj_countable' (fun _ => tt) (fun _ => MEMORY) _).
  by intros [].
Defined.
#[global] Instance ResourceTag_countable : Countable ResourceTag.
Proof.
  refine (inj_countable' (fun t => (rtype t, device t))
                         (fun p => mkResourceTag p.1 p.2) _).
  by intros [].
Defined.

(** Modelled from the spec: [execution/resources.h] is not part of the
    sources at hand.  A resource map is "a finite mapping from resource tags
    to non-negative reals"; its quantities are taken as exact rationals. *)
Abbreviation Resources := (gmap ResourceTag Qc).

(** Modelled from the spec: [resources::merge] of the missing
    [execution/resources.h], "point-wise merge(+)". *)
Definition merge (lhs rhs : Resources) : Resources :=
  union_with (fun a b => Some (a + b)%Qc) lhs rhs.

(** Modelled from the spec: [resources::scale] of the missing
    [execution/resources.h], "point-wise scale(k)". *)
Definition scale (lhs : Resources) (k : Qc) : Resources :=
  (fun v => (v * k)%Qc) <$> lhs.

(** The session tracker's answer; the field is spelled as in the source. *)
Record ResourceMap := mkResourceMap { temporary : Resources; persistant : Resources }.

(** ** Machine integers *)

Definition INT_MIN : Z := - 2 ^ 31.
Definition INT_MAX : Z := 2 ^ 31 - 1.

Definition in_int (z : Z) : bool := (INT_MIN <=? z) && (z <=? INT_MAX).

(** Two's complement reading of the low 32 bits. *)
Definition wrap_int (z : Z) : Z := (z + 2 ^ 31) mod 2 ^ 32 - 2 ^ 31.

(** Conversion to [size_t] / [uint64_t]. *)
Definition to_uint64 (z : Z) : Z := z mod 2 ^ 64.

(** [1 << n] on [int]: undefined unless [0 <= n < 32]; [1 << 31] is
    [INT_MIN]. *)
Definition int_shl1 (n : Z) : option Z :=
  if (0 <=? n) && (n <? 32) then Some (wrap_int (Z.shiftl 1 n)) else None.

(** The integer [z] as a quantity of a resource map. *)
Definition exact (z : Z) : Qc := Q2Qc (inject_Z z).

(** The [double] nearest to an unsigned integer (IEEE 754 binary64, round to
    nearest, ties to even): of a number of more than 53 bits the leading 53
    are kept, rounded, and the [e] bits below them are lost. *)
Definition nearest_double (z : Z) : Z :=
  let e := Z.log2 z - 52 in
  if e <=? 0 then z
  else
    let q := Z.shiftr z e in
    let r := Z.land z (Z.ones e) in
    let half := Z.shiftl 1 (e - 1) in
    Z.shiftl (if (half <? r) || ((half =? r) && Z.odd q) then q + 1 else q) e.

(** A [size_t] or [uint64_t] converted to [double]. *)
Definition to_double (z : Z) : Qc := exact (nearest_double z).

(** ** Status codes *)

Inductive Code :=
| OK | CANCELLED | UNKNOWN | INVALID_ARGUMENT | DEADLINE_EXCEEDED | NOT_FOUND
| ALREADY_EXISTS | PERMISSION_DENIED | UNAUTHENTICATED | RESOURCE_EXHAUSTED
| FAILED_PRECONDITION | ABORTED | OUT_OF_RANGE | UNIMPLEMENTED | INTERNAL
| UNAVAILABLE | DATA_LOSS.

#[global] Instance Code_eq_dec : EqDecision Code.
Proof. solve_decision. Defined.

(** A [tf::Status] is represented by its code. *)
Abbreviation Status := Code.

Definition ok (s : Status) : bool := bool_decide (s = OK).

(** [Status::Update]: keeps the first error. *)
Definition Update (s new : Status) : Status := if ok s then new else s.

(** ** Collaborators' data *)

Inductive MemoryType := DEVICE_MEMORY | HOST_MEMORY.

#[global] Instance MemoryType_eq_dec : EqDecision MemoryType.
Proof. solve_decision. Defined.

(** Output [i] of the node: its shape handle [ctx->output(i)] in the
    shape-inference context ([None] when the rank is unknown, otherwise one
    entry per dimension, [None] for a dimension whose value is unknown) and
    [DataTypeSize(node->output_type(i))]. *)
Record OutputInfo := mkOutputInfo { shape : option (list (option Z)); dtype_size : Z }.

(** A [tf::Device] as the task sees it. *)
Record TFDevice := mkTFDevice {
  name : string;
  device_type : string;
  RequiresRecordingAccessedTensors : bool
}.

Record OpKernel := mkOpKernel { kernel_id : Z; AsAsync : bool }.

Record DeviceItem := mkDeviceItem {
  item_device : option TFDevice;
  device_record_tensor_access : bool
}.

Record ResourceContext := mkResourceContext {
  spec : DeviceSpec;
  ticket : Z;
  resMon : option Z          (* the monitor's identity; [None] is [nullptr] *)
}.

(** An output slot ([Entry]) is an [option Z]: a default-constructed one
    holds no value. *)

(** ** Observable events *)

Inductive Msg :=
| FailureTimeExceeds (f max : Z)
| NoSessionUsage
| ShapeNotAvailable
| KernelNotFoundOnDevice (dev : DeviceSpec)
| UnknownRank (i : nat)
| UnknownDim
| CannotFindDevice (dev : DeviceSpec)
| KernelDeviceForgotten
| FindKernelFailed (s : Code)
| CreateKernelFailed (s : Code).

Inductive Event :=
| EvWarn (m : Msg)
| EvErr (m : Msg)
(* session tracker, shape inference, kernel registry, device manager *)
| EvSessionUsage
| EvShapeForNode
| EvMemoryTypesForNode (devtype : string)
| EvLookupDevice (devname : string)
| EvFindKernel
| EvDeleteKernel (k : OpKernel)
| EvSetResourceContext (rctx : ResourceContext)
(* resource monitor *)
| EvMonReserve (mon : Z)
| EvMonAllocate (mon : Z) (t : Z)
| EvMonFree (mon : Z) (t : Z)
(* executor state and device *)
| EvSetupKernel
| EvSetAllocAttrForNode
| EvPrepareInputs
| EvClearInputs (n : nat)
| EvCompute
| EvComputeAsync
| EvProcessOutputs
| EvPropagateOutputs (outputs : list (option Z))
| EvConsumeListOfAccessedTensors
| EvMaybeMarkCompleted
| EvNodeDone (s : Code) (inline_ready : bool)
| EvExecutorFinish
| EvNotify
(* callbacks *)
| EvLaunched
| EvDone
| EvMemFailure.

(** ** The task and its monad *)

Record ExecTask := mkExecTask {
  supportedTypes : list DeviceType;
  maxFailures : Z;
  failureTimes : Z;
  cachedUsage : gmap DeviceSpec (gmap ResourceTag Qc);
  rctx : ResourceContext;
  ditem : DeviceItem;
  op_kernel : option OpKernel;
  kernel_is_async : bool;
  has_ref_input : bool;
  outputs : list (option Z);
  completed : bool
}.

Definition set_failureTimes (v : Z) (t : ExecTask) : ExecTask :=
  mkExecTask (supportedTypes t) (maxFailures t) v (cachedUsage t) (rctx t)
             (ditem t) (op_kernel t) (kernel_is_async t) (has_ref_input t)
             (outputs t) (completed t).
Definition set_cachedUsage (v : gmap DeviceSpec (gmap ResourceTag Qc))
    (t : ExecTask) : ExecTask :=
  mkExecTask (supportedTypes t) (maxFailures t) (failureTimes t) v (rctx t)
             (ditem t) (op_kernel t) (kernel_is_async t) (has_ref_input t)
             (outputs t) (completed t).
Definition set_rctx (v : ResourceContext) (t : ExecTask) : ExecTask :=
  mkExecTask (supportedTypes t) (maxFailures t) (failureTimes t)
             (cachedUsage t) v (ditem t) (op_kernel t) (kernel_is_async t)
             (has_ref_input t) (outputs t) (completed t).
Definition set_ditem (v : DeviceItem) (t : ExecTask) : ExecTask :=
  mkExecTask (supportedTypes t) (maxFailures t) (failureTimes t)
             (cachedUsage t) (rctx t) v (op_kernel t) (kernel_is_async t)
             (has_ref_input t) (outputs t) (completed t).
Definition set_op_kernel (v : option OpKernel) (t : ExecTask) : ExecTask :=
  mkExecTask (supportedTypes t) (maxFailures t) (failureTimes t)
             (cachedUsage t) (rctx t) (ditem t) v (kernel_is_async t)
             (has_ref_input t) (outputs t) (completed t).
Definition set_kernel_is_async (v : bool) (t : ExecTask) : ExecTask :=
  mkExecTask (supportedTypes t) (maxFailures t) (failureTimes t)
             (cachedUsage t) (rctx t) (ditem t) (op_kernel t) v
             (has_ref_input t) (outputs t) (completed t).
Definition set_has_ref_input (v : bool) (t : ExecTask) : ExecTask :=
  mkExecTask (supportedTypes t) (maxFailures t) (failureTimes t)
             (cachedUsage t) (rctx t) (ditem t) (op_kernel t)
             (kernel_is_async t) v (outputs t) (completed t).
Definition set_outputs (v : list (option Z)) (t : ExecTask) : ExecTask :=
  mkExecTask (supportedTypes t) (maxFailures t) (failureTimes t)
             (cachedUsage t) (rctx t) (ditem t) (op_kernel t)
             (kernel_is_async t) (has_ref_input t) v (completed t).
Definition set_completed (v : bool) (t : ExecTask) : ExecTask :=
  mkExecTask (supportedTypes t) (maxFailures t) (failureTimes t)
             (cachedUsage t) (rctx t) (ditem t) (op_kernel t)
             (kernel_is_async t) (has_ref_input t) (outputs t) v.

Inductive Fault := AssertionFailed | Undefined.

Inductive Result (A : Type) :=
| Ret (a : A) (t : ExecTask)
| Crash (f : Fault).
Arguments Ret {A} a t.
Arguments Crash {A} f.

(** A member function: from the task's fields to the events it causes, in
    order, and how it ends. *)
Definition M (A : Type) : Type := ExecTask -> list Event * Result A.

Definition ret {A} (a : A) : M A := fun t => ([], Ret a t).

Definition bind {A B} (m : M A) (k : A -> M B) : M B :=
  fun t =>
    match m t with
    | (tr, Ret a t') => let (tr', r) := k a t' in (tr ++ tr', r)
    | (tr, Crash f) => (tr, Crash f)
    end.

Definition emit (e : Event) : M unit := fun t => ([e], Ret tt t).
Definition get : M ExecTask := fun t => ([], Ret t t).
Definition modify (f : ExecTask -> ExecTask) : M unit := fun t => ([], Ret tt (f t)).
Definition crash {A} (f : Fault) : M A := fun _ => ([], Crash f).

Declare Scope task_scope.
Delimit Scope task_scope with task.
Notation "x <- m ;; k" := (bind m (fun x => k))
  (at level 100, m at next level, right associativity) : task_scope.
Notation "m ;; k" := (bind m (fun _ => k))
  (at level 100, right associativity) : task_scope.
Local Open Scope task_scope.

(** [assert(cond)]. *)
Definition assert (NDEBUG cond : bool) : M unit :=
  if NDEBUG || cond then ret tt else crash AssertionFailed.

(** An operation whose result is undefined outside its domain. *)
Definition defined {A} (o : option A) : M A :=
  match o with Some a => ret a | None => crash Undefined end.

(** [int] arithmetic: overflow is undefined. *)
Definition int_val (z : Z) : M Z :=
  if in_int z then ret z else crash Undefined.

Definition trace {A} (o : list Event * Result A) : list Event := o.1.
Definition result {A} (o : list Event * Result A) : Result A := o.2.

Definition value {A} (o : list Event * Result A) : option A :=
  match o.2 with Ret a _ => Some a | Crash _ => None end.
Definition state_after {A} (o : list Event * Result A) : option ExecTask :=
  match o.2 with Ret _ t => Some t | Crash _ => None end.

Definition lift {A} (p : list Event * A) : M A := fun t => (p.1, Ret p.2 t).

(** ** ExecTask::LookupDevice *)

Definition device_name (spec : DeviceSpec) : string :=
  (match type spec with CPU => "CPU:" | GPU => "GPU:" end) +:+ pretty (id spec).

(** [mgr] is [deviceMgr->LookupDevice]: a status and the device found.  The
    per-task device made by [CreatePerOpAllocDevice] answers [name()],
    [device_type()] and [RequiresRecordingAccessedTensors()] like the device
    it wraps.  On failure [item] is left as it was. *)
Definition LookupDevice (mgr : string -> Status * TFDevice) (spec : DeviceSpec)
    (item : DeviceItem) : list Event * (Status * DeviceItem) :=
  let name := device_name spec in
  let '(s, tfdev) := mgr name in
  if ok s
  then ([EvLookupDevice name],
        (OK, mkDeviceItem (Some tfdev) (RequiresRecordingAccessedTensors tfdev)))
  else ([EvLookupDevice name; EvErr (CannotFindDevice spec)], (s, item)).

(** ** ExecTask::estimatedUsage *)

Record EstimateEnv := mkEstimateEnv {
  (* SessionResourceTracker::instance().usage(sessHandle) *)
  session_usage : option ResourceMap;
  (* m_state->shapeForNode(node), with the node's output types *)
  shapeForNode : option (list OutputInfo);
  est_deviceMgr : string -> Status * TFDevice;
  (* tf::remote::MemoryTypesForNode: status and output_mtypes *)
  MemoryTypesForNode : string -> Status * list MemoryType
}.

(** The inner loop over the dimensions of one output: [count *= val] in
    [size_t] for the known ones. *)
Fixpoint count_dims (dims : list (option Z)) (count : Z) : list Event * Z :=
  match dims with
  | [] => ([], count)
  | None :: ds =>
      let (w, c) := count_dims ds count in (EvWarn UnknownDim :: w, c)
  | Some val :: ds => count_dims ds (to_uint64 (count * to_uint64 val))
  end.

(** [res[tag] += subtotal]. *)
Definition charge (res : Resources) (tag : ResourceTag) (subtotal : Qc) : Resources :=
  <[tag := (default 0%Qc (res !! tag) + subtotal)%Qc]> res.

(** [double subtotal = count * tf::DataTypeSize(dtype)]. *)
Definition subtotal_of (count size : Z) : Qc :=
  to_double (to_uint64 (count * to_uint64 size)).

(** The loop over the node's outputs, from output [i] on.  An index past the
    end of [output_mtypes] is read as "not host memory". *)
Fixpoint estimate_outputs (i : nat) (outs : list OutputInfo) (mtypeOk : bool)
    (output_mtypes : list MemoryType) (devTag cpuTag : ResourceTag)
    (res : Resources) : list Event * Resources :=
  match outs with
  | [] => ([], res)
  | o :: rest =>
      match shape o with
      | None =>
          let (w, r) := estimate_outputs (S i) rest mtypeOk output_mtypes devTag cpuTag res in
          (EvWarn (UnknownRank i) :: w, r)
      | Some dims =>
          let (w1, count) := count_dims dims 1 in
          let subtotal := subtotal_of count (dtype_size o) in
          let res' :=
            if mtypeOk && bool_decide (output_mtypes !! i = Some HOST_MEMORY)
            then charge res cpuTag subtotal
            else charge res devTag subtotal in
          let (w2, r) := estimate_outputs (S i) rest mtypeOk output_mtypes devTag cpuTag res' in
          (w1 ++ w2, r)
      end
  end.

(** The "short-cut if this task has failed before". *)
Definition estimate_from_session (env : EstimateEnv) (dev : DeviceSpec) : M unit :=
  t <- get;;
  if 0 <? failureTimes t then
    emit EvSessionUsage;;
    match session_usage env with
    | Some rm =>
        let merged := merge (temporary rm) (persistant rm) in
        f <- (if maxFailures t <? failureTimes t
              then emit (EvWarn (FailureTimeExceeds (failureTimes t) (maxFailures t)));;
                   ret (maxFailures t)
              else ret (failureTimes t));;
        m1 <- int_val (maxFailures t + 1);;
        n <- int_val (m1 - f);;
        sh <- defined (int_shl1 n);;
        let scale64 := to_uint64 sh in
        let scaled := scale merged (1 / to_double scale64)%Qc in
        modify (fun t => set_cachedUsage (<[dev := scaled]> (cachedUsage t)) t)
    | None => emit (EvErr NoSessionUsage)
    end
  else ret tt.

(** The "slow path to calculate the usage"; [res] aliases the fresh entry
    [cachedUsage[dev]]. *)
Definition estimate_from_shapes (env : EstimateEnv) (dev : DeviceSpec) : M Resources :=
  modify (fun t => set_cachedUsage (<[dev := ∅]> (cachedUsage t)) t);;
  emit EvShapeForNode;;
  match shapeForNode env with
  | None => emit (EvWarn ShapeNotAvailable);; ret ∅
  | Some ctx =>
      looked <- lift (LookupDevice (est_deviceMgr env) dev (mkDeviceItem None false));;
      let '(s, item) := looked in
      mtypes <-
         (if ok s then
            match item_device item with
            | Some d =>
                emit (EvMemoryTypesForNode (device_type d));;
                let '(s', mt) := MemoryTypesForNode env (device_type d) in
                ret (Update s s', mt)
            | None => crash Undefined
            end
          else ret (s, []));;
      let '(mtypeStatus, output_mtypes) := mtypes in
      (if ok mtypeStatus then ret tt else emit (EvWarn (KernelNotFoundOnDevice dev)));;
      let devTag := mkResourceTag MEMORY dev in
      let cpuTag := mkResourceTag MEMORY dev in
      res <- lift (estimate_outputs 0 ctx (ok mtypeStatus) output_mtypes devTag cpuTag ∅);;
      modify (fun t => set_cachedUsage (<[dev := res]> (cachedUsage t)) t);;
      ret res
  end.

Definition estimatedUsage (env : EstimateEnv) (dev : DeviceSpec) : M Resources :=
  estimate_from_session env dev;;
  t <- get;;
  match cachedUsage t !! dev with
  | Some r => ret r                      (* fast path from cache *)
  | None => estimate_from_shapes env dev (* slow path *)
  end.

(** ** ExecTask::prepare and ExecTask::releasePreAllocation *)

Record PrepareEnv := mkPrepareEnv {
  prep_deviceMgr : string -> Status * TFDevice;
  (* params_.find_kernel(def, &devName, &op_kernel): status, devName and the
     kernel of the process-wide cache, if any *)
  find_kernel : Status * string * option OpKernel;
  prep_NDEBUG : bool
}.

Definition prepare (env : PrepareEnv) (ctx : ResourceContext) : M bool :=
  modify (set_rctx ctx);;
  t <- get;;
  let dev := spec (rctx t) in
  (* std::none_of(supportedTypes, type == dev.type) *)
  if forallb (fun ty => negb (bool_decide (ty = type dev))) (supportedTypes t)
  then ret false
  else
    looked <- lift (LookupDevice (prep_deviceMgr env) dev (ditem t));;
    let '(s, item) := looked in
    modify (set_ditem item);;
    if negb (ok s) then ret false
    else
      assert (prep_NDEBUG env) (bool_decide (resMon (rctx t) <> None));;
      emit (EvSetResourceContext (rctx t));;
      (* first check if we already created the kernel on some device *)
      modify (set_op_kernel None);;
      emit EvFindKernel;;
      let '(fk, devName, k) := find_kernel env in
      modify (set_op_kernel k);;
      if ok fk && bool_decide (k <> None) then
        if bool_decide (devName = "") then
          emit (EvWarn KernelDeviceForgotten);;
          modify (set_op_kernel None);;
          ret false
        else
          match item_device item with
          | None => crash Undefined
          | Some d =>
              if bool_decide (devName = name d) then ret true
              else modify (set_op_kernel None);; ret false
          end
      else
        (if negb (ok fk) then emit (EvErr (FindKernelFailed fk)) else ret tt);;
        ret true.

Definition releasePreAllocation : M unit :=
  t <- get;;
  match resMon (rctx t) with
  | Some mon => emit (EvMonFree mon (ticket (rctx t)))
  | None => ret tt
  end.

(** [ExecTask::~ExecTask]: hands the kernel it holds to [deleteKernel]. *)
Definition destroy : M unit :=
  t <- get;;
  match op_kernel t with
  | Some k => emit (EvDeleteKernel k)
  | None => ret tt
  end.

(** ** ExecTask::run, ExecTask::maybeMemoryFailure, ExecTask::finish *)

(** [done] and [launched] are invoked unconditionally by the source; only
    [memFailure] is tested before use: [memFailure] says whether it holds a
    target.  The embedding of [run] is that of a cycle on a task that
    [prepare] has bound to a device and whose callbacks [done] and
    [launched] hold targets: the calls through [ditem.device] and the calls
    of these two callbacks are taken to go through. *)
Record Callbacks := mkCallbacks { memFailure : bool }.

Record RunEnv := mkRunEnv {
  (* m_state->SetupKernel(tagged_node, ditem, &op_kernel) *)
  SetupKernel : Status * option OpKernel;
  (* IsRefType(item.input_type(i)) for i < item.num_inputs *)
  input_is_ref : list bool;
  num_outputs : nat;
  SetAllocAttrForNode : Status;
  is_dead : bool;
  IsTransferNode : bool;
  PrepareInputs : Status;
  (* ctx.status() once the kernel has completed *)
  kernel_status : Status;
  (* m_state->ProcessOutputs on a context with that status *)
  ProcessOutputs : Status -> Status * list (option Z);
  (* ctx.retrieve_accessed_tensors *)
  accessed_tensors : list Z;
  (* m_state->NodeDone(s, ...) *)
  NodeDone : Status -> bool;
  (* how many events the completion callback of an asynchronous kernel has
     caused when [run] reaches [cbs.launched()]: 0 when the callback runs
     later, everything when the kernel completes inside [ComputeAsync] *)
  launched_after : nat;
  NDEBUG : bool
}.

Definition num_inputs (env : RunEnv) : nat := length (input_is_ref env).

Definition maybeMemoryFailure (env : RunEnv) (s : Status) (memFailure : bool) : M bool :=
  if bool_decide (s = RESOURCE_EXHAUSTED) then
    t <- get;;
    (* we didn't implement rollback *)
    assert (NDEBUG env) (negb (has_ref_input t));;
    modify (fun t => set_failureTimes (failureTimes t + 1) t);;
    (if memFailure then emit EvMemFailure else ret tt);;
    ret true
  else ret false.

Definition finish (env : RunEnv) (s : Status) (cbs : Callbacks) (isAsync : bool) : M unit :=
  emit EvMaybeMarkCompleted;;
  emit (EvNodeDone s (negb isAsync));;
  modify (set_completed (NodeDone env s));;
  (if isAsync
   then (if NodeDone env s then emit EvExecutorFinish else ret tt)
   else emit EvLaunched);;
  emit EvNotify;;
  emit EvDone.

(** The completion callback handed to [ComputeAsync]; [ditem] is captured by
    copy, [completed] is a local of the lambda. *)
Definition asyncDone (env : RunEnv) (cbs : Callbacks) (ditem : DeviceItem) : M unit :=
  oom <- maybeMemoryFailure env (kernel_status env) (memFailure cbs);;
  if oom then ret tt
  else
    emit EvProcessOutputs;;
    let '(s, outputs) := ProcessOutputs env (kernel_status env) in
    emit (EvClearInputs (num_inputs env));;
    (if ok s then emit (EvPropagateOutputs outputs) else ret tt);;
    (if ok s && device_record_tensor_access ditem
     then emit EvConsumeListOfAccessedTensors else ret tt);;
    emit EvMaybeMarkCompleted;;
    emit (EvNodeDone s false);;
    (if NodeDone env s then emit EvExecutorFinish else ret tt);;
    emit EvNotify;;
    emit EvDone.

(** [ComputeAsync] followed by [cbs.launched()] on the thread of [run]: the
    callback's events, with [EvLaunched] placed after the first
    [launched_after] of them. *)
Definition computeAsync (env : RunEnv) (cbs : Callbacks) : M unit :=
  fun t =>
    let (tr, r) := asyncDone env cbs (ditem t) t in
    (EvComputeAsync :: take (launched_after env) tr
       ++ EvLaunched :: drop (launched_after env) tr, r).

(** The block under [if (!launched_asynchronously)]. *)
Definition postprocess (env : RunEnv) (s : Status) (cbs : Callbacks)
    (accessed : list Z) : M unit :=
  emit (EvClearInputs (num_inputs env));;
  t <- get;;
  (if ok s then emit (EvPropagateOutputs (outputs t)) else ret tt);;
  modify (set_outputs []);;
  (if bool_decide (accessed <> [])
   then emit EvConsumeListOfAccessedTensors else ret tt);;
  finish env s cbs false.

Definition run (env : RunEnv) (cbs : Callbacks) : M unit :=
  t <- get;;
  (* instantiate kernel if not ready done *)
  setup <- (match op_kernel t with
            | Some _ => ret OK
            | None =>
                emit EvSetupKernel;;
                let '(s, k) := SetupKernel env in
                modify (set_op_kernel k);;
                (if ok s then ret tt else emit (EvErr (CreateKernelFailed s)));;
                ret s
            end);;
  if negb (ok setup) then finish env setup cbs false
  else
    t <- get;;
    match op_kernel t with
    | None => crash AssertionFailed          (* CHECK(op_kernel) *)
    | Some kernel =>
        modify (set_kernel_is_async (AsAsync kernel));;
        (if existsb (fun r => r) (input_is_ref env)
         then modify (set_has_ref_input true) else ret tt);;
        emit EvSetAllocAttrForNode;;
        let s := SetAllocAttrForNode env in
        if negb (ok s) then finish env s cbs false
        else
          modify (set_outputs []);;
          if is_dead env && negb (IsTransferNode env) then
            modify (set_outputs (replicate (num_outputs env) None));;
            postprocess env s cbs []
          else
            emit EvPrepareInputs;;
            let s := PrepareInputs env in
            if negb (ok s) then
              emit (EvClearInputs (num_inputs env));;
              finish env s cbs false
            else if AsAsync kernel then
              computeAsync env cbs
            else
              emit EvCompute;;
              oom <- maybeMemoryFailure env (kernel_status env) (memFailure cbs);;
              if oom then ret tt
              else
                emit EvProcessOutputs;;
                let '(s, outs) := ProcessOutputs env (kernel_status env) in
                modify (set_outputs outs);;
                t <- get;;
                postprocess env s cbs
                  (if ok s && device_record_tensor_access (ditem t)
                   then accessed_tensors env else [])
    end.

(** * Vocabulary of the properties and scenario data *)

(** The clamped failure count and the exponent of the scale. *)
Definition clamped (t : ExecTask) : Z := Z.min (failureTimes t) (maxFailures t).
Definition exponent (t : ExecTask) : Z := maxFailures t + 1 - clamped t.

Definition cpu0 : DeviceSpec := mkDeviceSpec CPU 0.
Definition gpu0 : DeviceSpec := mkDeviceSpec GPU 0.

Definition mem (d : DeviceSpec) : ResourceTag := mkResourceTag MEMORY d.

(** A device manager that knows ["CPU:0"] and ["GPU:0"]. *)
Definition two_devices (n : string) : Status * TFDevice :=
  if bool_decide (n = "CPU:0") then (OK, mkTFDevice "/device:CPU:0" "CPU" false)
  else if bool_decide (n = "GPU:0") then (OK, mkTFDevice "/device:GPU:0" "GPU" true)
  else (INVALID_ARGUMENT, mkTFDevice "" "" false).

(** A task as the constructor leaves it, but for the failure count. *)
Definition fresh_task (maxFailures failureTimes : Z) : ExecTask :=
  mkExecTask [GPU; CPU] maxFailures failureTimes ∅
             (mkResourceContext cpu0 0 None) (mkDeviceItem None false)
             None false false [] false.

(** Session usage of scenario S2: temporary 1000 and persistent 200 bytes on
    [gpu0]. *)
Definition session_S2 : ResourceMap :=
  mkResourceMap {[ mem gpu0 := to_double 1000 ]} {[ mem gpu0 := to_double 200 ]}.

Definition env_S2 : EstimateEnv :=
  mkEstimateEnv (Some session_S2) None two_devices (fun _ => (OK, [])).

(** What one output adds, in the words of the specification as far as the
    code follows them: nothing when the rank is unknown, otherwise the
    product of the known dimensions times the size of the element type
    (read in [size_t], that is modulo [2^64]). *)
Definition known_product (dims : list (option Z)) : Z :=
  foldr (fun d acc => match d with Some v => v * acc | None => acc end) 1 dims.

Definition contribution (o : OutputInfo) : option Qc :=
  match shape o with
  | None => None
  | Some dims => Some (to_double ((known_product dims * dtype_size o) mod 2 ^ 64))
  end.

Definition contributions (outs : list OutputInfo) : list Qc := omap contribution outs.

Definition total (cs : list Qc) : Qc := foldr Qcplus 0%Qc cs.

(** The same amounts as integers: the bytes of one output of known rank as
    [size_t] holds them, and their sum over the outputs. *)
Definition byte_count (o : OutputInfo) : option Z :=
  match shape o with
  | None => None
  | Some dims => Some ((known_product dims * dtype_size o) mod 2 ^ 64)
  end.

Definition total_bytes (outs : list OutputInfo) : Z :=
  foldr Z.add 0 (omap byte_count outs).

(** Charging a list of amounts to one tag, one after the other. *)
Definition charge_all (tag : ResourceTag) (cs : list Qc) (res : Resources) : Resources :=
  foldl (fun r c => charge r tag c) res cs.

(** The map the shape path builds: empty when no output has a known rank,
    otherwise the single tag [(MEMORY, dev)] with the sum of the outputs'
    contributions. *)
Definition shape_estimate (dev : DeviceSpec) (outs : list OutputInfo) : Resources :=
  match contributions outs with
  | [] => ∅
  | cs => {[ mkResourceTag MEMORY dev := total cs ]}
  end.

(** The shape path is the one taken when the short-cut does not apply (no
    failure so far, or no session data) and nothing is cached for [dev]. *)
Definition shape_path_taken (env : EstimateEnv) (dev : DeviceSpec) (t : ExecTask) : Prop :=
  (failureTimes t <= 0 \/ session_usage env = None) /\ cachedUsage t !! dev = None.

(** Scenario S1: one [int32] output of shape [[2,3]] on [cpu0] is 24 bytes. *)
Definition env_S1 : EstimateEnv :=
  mkEstimateEnv None (Some [mkOutputInfo (Some [Some 2; Some 3]) 4])
                two_devices (fun _ => (OK, [DEVICE_MEMORY])).

(** An output with one dimension unknown: shape [[2,?]], 4-byte elements. *)
Definition env_partial : EstimateEnv :=
  mkEstimateEnv None (Some [mkOutputInfo (Some [Some 2; None]) 4])
                two_devices (fun _ => (OK, [DEVICE_MEMORY])).

(** One host-memory output of shape [[2,3]], 4-byte elements, estimated for
    [gpu0]; the memory types are found. *)
Definition env_host : EstimateEnv :=
  mkEstimateEnv None (Some [mkOutputInfo (Some [Some 2; Some 3]) 4])
                two_devices (fun _ => (OK, [HOST_MEMORY])).

(** The session's usage as the tracker reports it a little later. *)
Definition env_S2_later : EstimateEnv :=
  mkEstimateEnv
    (Some (mkResourceMap {[ mem gpu0 := to_double 2000 ]} {[ mem gpu0 := to_double 200 ]}))
    None two_devices (fun _ => (OK, [])).

Definition is_monitor_op (e : Event) : bool :=
  match e with
  | EvMonReserve _ | EvMonAllocate _ _ | EvMonFree _ _ => true
  | _ => false
  end.

Definition is_kernel_delete (e : Event) : bool :=
  match e with EvDeleteKernel _ => true | _ => false end.

(** The three reasons of the claim. *)
Definition unsupported (t : ExecTask) (ctx : ResourceContext) : Prop :=
  type (spec ctx) ∉ supportedTypes t.

Definition lookup_fails (env : PrepareEnv) (ctx : ResourceContext) : Prop :=
  ok (prep_deviceMgr env (device_name (spec ctx))).1 = false.

Definition kernel_elsewhere (env : PrepareEnv) (ctx : ResourceContext) : Prop :=
  exists devName k,
    find_kernel env = (OK, devName, Some k)
    /\ devName <> name (prep_deviceMgr env (device_name (spec ctx))).2.

(** Scenario S3: the node's kernel was made on [cpu0]; the task is then
    offered [gpu0] with ticket 7 of monitor 1. *)
Definition variable_kernel : OpKernel := mkOpKernel 1 false.

Definition env_S3 : PrepareEnv :=
  mkPrepareEnv two_devices (OK, "/device:CPU:0", Some variable_kernel) false.

Definition ctx_gpu0 : ResourceContext := mkResourceContext gpu0 7 (Some 1).

(** An earlier [prepare] on [cpu0] succeeded with ticket 3; the task is
    then offered [gpu0] with ticket 7 and refuses. *)
Definition ctx_cpu0 : ResourceContext := mkResourceContext cpu0 3 (Some 1).

Definition prepared_on_cpu0 : ExecTask :=
  mkExecTask [GPU; CPU] 4 0 ∅ ctx_cpu0
             (mkDeviceItem (Some (mkTFDevice "/device:CPU:0" "CPU" false)) false)
             (Some variable_kernel) false false [] false.

Definition is_done (e : Event) : bool := match e with EvDone => true | _ => false end.
Definition is_launched (e : Event) : bool := match e with EvLaunched => true | _ => false end.
Definition is_notify (e : Event) : bool := match e with EvNotify => true | _ => false end.
Definition is_memFailure (e : Event) : bool := match e with EvMemFailure => true | _ => false end.
Definition is_propagate (e : Event) : bool :=
  match e with EvPropagateOutputs _ => true | _ => false end.
Definition is_compute (e : Event) : bool :=
  match e with EvCompute | EvComputeAsync => true | _ => false end.
Definition is_compute_async (e : Event) : bool :=
  match e with EvComputeAsync => true | _ => false end.

(** How often an event of a kind occurs. *)
Fixpoint count (p : Event -> bool) (tr : list Event) : nat :=
  match tr with
  | [] => 0
  | e :: tr' => ((if p e then 1 else 0) + count p tr')%nat
  end.

(** Every [p]-event comes before every [q]-event. *)
Definition all_before (p q : Event -> bool) (tr : list Event) : Prop :=
  forall i j a b, tr !! i = Some a -> tr !! j = Some b ->
    p a = true -> q b = true -> (i < j)%nat.

(** Every [q]-event has a [p]-event before it. *)
Definition some_before (p q : Event -> bool) (tr : list Event) : Prop :=
  forall j b, tr !! j = Some b -> q b = true ->
    exists i a, (i < j)%nat /\ tr !! i = Some a /\ p a = true.

(** "[p] happens strictly before [q]". *)
Definition strictly_before (p q : Event -> bool) (tr : list Event) : Prop :=
  some_before p q tr /\ all_before p q tr.

Fixpoint all_beforeb (p q : Event -> bool) (tr : list Event) : bool :=
  match tr with
  | [] => true
  | e :: tr' => (negb (q e) || negb (existsb p (e :: tr'))) && all_beforeb p q tr'
  end.

Fixpoint some_beforeb (p q : Event -> bool) (seen : bool) (tr : list Event) : bool :=
  match tr with
  | [] => true
  | e :: tr' => (negb (q e) || seen) && some_beforeb p q (seen || p e) tr'
  end.

Definition strictly_beforeb (p q : Event -> bool) (tr : list Event) : bool :=
  some_beforeb p q false tr && all_beforeb p q tr.

Definition is_node_done_ok (e : Event) : bool :=
  match e with EvNodeDone s _ => ok s | _ => false end.

(** A synchronous kernel for node [Add] and an asynchronous one for
    [_Recv]. *)
Definition add_kernel : OpKernel := mkOpKernel 2 false.
Definition recv_kernel : OpKernel := mkOpKernel 3 true.

(** The task after a successful [prepare] on [gpu0], no kernel cached. *)
Definition prepared_on_gpu0 : ExecTask :=
  mkExecTask [GPU; CPU] 4 0 ∅ ctx_gpu0
             (mkDeviceItem (Some (mkTFDevice "/device:GPU:0" "GPU" true)) true)
             None false false [] false.

(** One cycle of [run]: the kernel that [SetupKernel] makes, whether the
    node is dead, whether it is a transfer node, the status the kernel
    completes with, where [launched] falls among the events of an
    asynchronous completion, which inputs are references. *)
Definition cycle (k : OpKernel) (dead transfer : bool) (st : Status) (la : nat)
    (refs : list bool) : RunEnv :=
  mkRunEnv (OK, Some k) refs 2 OK dead transfer OK st
           (fun s => (s, [Some 7; Some 8])) [] (fun _ => false) la false.

(** The kernel is at hand: cached by [prepare], or made by [SetupKernel]. *)
Definition kernel_ready (env : RunEnv) (t : ExecTask) : Prop :=
  is_Some (op_kernel t)
  \/ (ok (SetupKernel env).1 = true /\ is_Some (SetupKernel env).2).

(** A dead [Add] whose kernel cannot be made. *)
Definition env_no_kernel : RunEnv :=
  mkRunEnv (NOT_FOUND, None) [false; false] 2 OK true false OK OK
           (fun s => (s, [Some 7; Some 8])) [] (fun _ => false) 0 false.

(** ** ExecTask::ExecTask *)

(** The names of TensorFlow's device types. *)
Definition DEVICE_CPU : string := "CPU".
Definition DEVICE_GPU : string := "GPU".

Inductive CtorWarning :=
| SupportedDevicesQueryFailed (s : Code)
| UnknownTfDeviceType (tft : string).

(** The loop over [tftypes]: what is pushed to [supportedTypes], and the
    warnings. *)
Fixpoint translate_types (tftypes : list string) : list CtorWarning * list DeviceType :=
  match tftypes with
  | [] => ([], [])
  | tft :: rest =>
      let (w, types) := translate_types rest in
      if bool_decide (tft = DEVICE_CPU) then (w, CPU :: types)
      else if bool_decide (tft = DEVICE_GPU) then (w, GPU :: types)
      else (UnknownTfDeviceType tft :: w, types)
  end.

(** "pre compute estimated usage": [estimatedUsage(t)] for every supported
    type; [to_spec] is the conversion from [DeviceType] to [DeviceSpec] that
    the call relies on (declared in [execution/devices.h]). *)
Fixpoint precompute (env : EstimateEnv) (to_spec : DeviceType -> DeviceSpec)
    (types : list DeviceType) : M unit :=
  match types with
  | [] => ret tt
  | ty :: rest => estimatedUsage env (to_spec ty);; precompute env to_spec rest
  end.

Definition set_supportedTypes (v : list DeviceType) (t : ExecTask) : ExecTask :=
  mkExecTask v (maxFailures t) (failureTimes t) (cachedUsage t) (rctx t)
             (ditem t) (op_kernel t) (kernel_is_async t) (has_ref_input t)
             (outputs t) (completed t).
Definition set_maxFailures (v : Z) (t : ExecTask) : ExecTask :=
  mkExecTask (supportedTypes t) v (failureTimes t) (cachedUsage t) (rctx t)
             (ditem t) (op_kernel t) (kernel_is_async t) (has_ref_input t)
             (outputs t) (completed t).

(** The constructor.  [query] is what [tf::SupportedDeviceTypesForNode]
    answers (status and [tftypes]); [t0] holds the fields as their default
    member initialisers leave them.  The result is the warnings of the
    constructor's own loop and the run of the pre-computation on the
    initialised task. *)
Definition construct (query : Status * list string) (env : EstimateEnv)
    (to_spec : DeviceType -> DeviceSpec) (maxFailures : Z) (t0 : ExecTask)
    : list CtorWarning * (list Event * Result unit) :=
  let '(s, tftypes) := query in
  let (w, types) := translate_types tftypes in
  ((if ok s then [] else [SupportedDevicesQueryFailed s]) ++ w,
   precompute env to_spec types
     (set_supportedTypes types
        (set_has_ref_input false
           (set_kernel_is_async false (set_maxFailures maxFailures t0))))).

(** The name under which TensorFlow knows a device type of the task. *)
Definition tf_name (ty : DeviceType) : string :=
  match ty with CPU => DEVICE_CPU | GPU => DEVICE_GPU end.

(** ** sstl::priority_semaphore (utils/threadutils.h)

    The state under the semaphore's mutex: the pending count of every
    priority level (index 0 is the highest priority; the list is as long as
    [kMaxPriority]) and the count.  Every member function runs under the
    mutex, so each is one atomic step; the blocking [wait] is two steps, the
    entry and the wake-up that finds [can_take] true.  Indexing [m_pending]
    at or beyond [kMaxPriority] is undefined in the source; the steps are
    meant for [p < kMaxPriority]. *)
Module priority_semaphore.

Record state := mk { m_pending : list Z; m_count : Z }.

Definition kMaxPriority (s : state) : nat := length (m_pending s).

(** [can_take(c, p)]: no level above [p] has a waiter, and the count
    suffices; the level's own queue is not looked at. *)
Definition can_take (s : state) (c : Z) (p : nat) : bool :=
  forallb (fun n => negb (0 <? n)) (take p (m_pending s)) && (c <=? m_count s).

(** The first level with a waiter, from level [i] on. *)
Fixpoint first_pending (l : list Z) (i : nat) : option nat :=
  match l with
  | [] => None
  | n :: l' => if 0 <? n then Some i else first_pending l' (S i)
  end.

(** [post(c)]: the new state and the queue that is notified, if any. *)
Definition post (s : state) (c : Z) : state * option nat :=
  (mk (m_pending s) (to_uint64 (m_count s + c)), first_pending (m_pending s) 0).

Definition try_wait (s : state) (c : Z) (p : nat) : state * bool :=
  if can_take s c p
  then (mk (m_pending s) (to_uint64 (m_count s - c)), true)
  else (s, false).

(** [m_pending[p] += d] in [uint64_t], for a level [p < kMaxPriority]; the
    source's store past the array is undefined, and nothing is claimed of
    it. *)
Definition add_pending (l : list Z) (p : nat) (d : Z) : list Z :=
  alter (fun n => to_uint64 (n + d)) p l.

(** Entry of [wait(c, p)]: either the amount is taken at once ([inl]), or
    the caller is counted as pending at its level and sleeps ([inr]). *)
Definition wait_enter (s : state) (c : Z) (p : nat) : state + state :=
  if can_take s c p
  then inl (mk (m_pending s) (to_uint64 (m_count s - c)))
  else inr (mk (add_pending (m_pending s) p 1) (m_count s)).

(** A sleeping caller of [wait(c, p)] wakes up: it goes on only when
    [can_take] holds ([None]: it sleeps again). *)
Definition wait_wake (s : state) (c : Z) (p : nat) : option state :=
  if can_take s c p
  then Some (mk (add_pending (m_pending s) p (-1)) (to_uint64 (m_count s - c)))
  else None.

(** The counters are [uint64_t]. *)
Definition valid (s : state) : Prop :=
  0 <= m_count s < 2 ^ 64 /\ Forall (fun n => 0 <= n < 2 ^ 64) (m_pending s).

End priority_semaphore.

(** ** Further vocabulary and scenario data *)

(** No shape information at first; the same node with its shape known. *)
Definition env_no_shapes : EstimateEnv :=
  mkEstimateEnv None None two_devices (fun _ => (OK, [])).

(** A task that failed once and holds 24 bytes for [cpu0] in its cache. *)
Definition failed_with_cache : ExecTask :=
  set_cachedUsage {[ cpu0 := {[ mem cpu0 := to_double 24 ]} ]} (fresh_task 4 1).

(** The host-memory node of [env_host], with no device manager at all. *)
Definition env_host_no_device : EstimateEnv :=
  mkEstimateEnv None (Some [mkOutputInfo (Some [Some 2; Some 3]) 4])
                (fun _ => (NOT_FOUND, mkTFDevice "" "" false))
                (fun _ => (NOT_FOUND, [])).

(** An output with a negative dimension, as a faulty shape function could
    report it. *)
Definition env_negative_dim : EstimateEnv :=
  mkEstimateEnv None (Some [mkOutputInfo (Some [Some (-2); Some 3]) 4])
                two_devices (fun _ => (OK, [DEVICE_MEMORY])).

(** The kernel cache cannot be queried. *)
Definition env_cache_down : PrepareEnv :=
  mkPrepareEnv two_devices (INTERNAL, "", None) false.

(** A context for a device the manager does not know. *)
Definition ctx_gpu7 : ResourceContext := mkResourceContext (mkDeviceSpec GPU 7) 9 (Some 1).

Definition is_setup (e : Event) : bool :=
  match e with EvSetupKernel => true | _ => false end.
Definition is_node_done (e : Event) : bool :=
  match e with EvNodeDone _ _ => true | _ => false end.
Definition is_mark_completed (e : Event) : bool :=
  match e with EvMaybeMarkCompleted => true | _ => false end.
Definition is_inline_node_done (e : Event) : bool :=
  match e with EvNodeDone _ b => b | _ => false end.
Definition is_executor_finish (e : Event) : bool :=
  match e with EvExecutorFinish => true | _ => false end.
Definition is_sync_compute (e : Event) : bool :=
  match e with EvCompute => true | _ => false end.

(** What completes a node: everything [run] does after the kernel when it
    does not stop for a memory failure. *)
Definition is_completion (e : Event) : bool :=
  match e with
  | EvProcessOutputs | EvClearInputs _ | EvPropagateOutputs _
  | EvConsumeListOfAccessedTensors | EvMaybeMarkCompleted | EvNodeDone _ _
  | EvExecutorFinish | EvNotify | EvDone => true
  | _ => false
  end.

(** The kernel of the node was made on [gpu0]. *)
Definition env_same_device : PrepareEnv :=
  mkPrepareEnv two_devices (OK, "/device:GPU:0", Some add_kernel) false.

(** Three levels; a waiter is pending at level 0; the count is 100. *)
Definition sem_busy : priority_semaphore.state := priority_semaphore.mk [1; 0; 0] 100.

(** Three idle levels, count 5. *)
Definition sem_idle : priority_semaphore.state := priority_semaphore.mk [0; 0; 0] 5.

(** * Properties *)

(** ** Machine arithmetic *)

Lemma int_shl1_small (n : Z) : 0 <= n < 31 -> int_shl1 n = Some (2 ^ n).
Proof.
  intros Hn. unfold int_shl1.
  replace ((0 <=? n) && (n <? 32)) with true
    by (symmetry; apply andb_true_iff; split; [apply Z.leb_le | apply Z.ltb_lt]; lia).
  f_equal. rewrite Z.shiftl_1_l. unfold wrap_int.
  assert (0 < 2 ^ n) by (apply Z.pow_pos_nonneg; lia).
  assert (2 ^ n <= 2 ^ 30) by (apply Z.pow_le_mono_r; lia).
  rewrite Z.mod_small; lia.
Qed.

Lemma to_uint64_pow2 (n : Z) : 0 <= n < 64 -> to_uint64 (2 ^ n) = 2 ^ n.
Proof.
  intros Hn. unfold to_uint64. apply Z.mod_small. split.
  - apply Z.pow_nonneg; lia.
  - apply Z.pow_lt_mono_r; lia.
Qed.

Lemma in_int_true (z : Z) : INT_MIN <= z <= INT_MAX -> in_int z = true.
Proof.
  intros [? ?]. unfold in_int.
  apply andb_true_iff; split; apply Z.leb_le; lia.
Qed.

(** Below [2^53] the conversion to [double] is exact. *)
Lemma nearest_double_small (z : Z) : z < 2 ^ 53 -> nearest_double z = z.
Proof.
  intros Hz. unfold nearest_double.
  destruct (Z.leb_spec (Z.log2 z - 52) 0) as [|He]; [reflexivity|].
  exfalso. destruct (Z.le_gt_cases z 0) as [Hn|Hp].
  - rewrite Z.log2_nonpos in He by exact Hn. lia.
  - apply Z.log2_lt_pow2 in Hz; lia.
Qed.

Lemma nearest_double_nonneg (z : Z) : 0 <= z -> 0 <= nearest_double z.
Proof.
  intros Hz. unfold nearest_double.
  destruct (Z.leb_spec (Z.log2 z - 52) 0) as [|He]; [exact Hz|].
  apply Z.shiftl_nonneg.
  assert (0 <= Z.shiftr z (Z.log2 z - 52)) by (apply Z.shiftr_nonneg; exact Hz).
  destruct (_ || _); lia.
Qed.

Lemma nearest_double_pos (z : Z) : 0 < z -> 0 < nearest_double z.
Proof.
  intros Hz. unfold nearest_double.
  destruct (Z.leb_spec (Z.log2 z - 52) 0) as [|He]; [exact Hz|].
  set (e := Z.log2 z - 52) in *.
  rewrite Z.shiftl_mul_pow2 by lia.
  assert (Hp : 0 < 2 ^ e) by (apply Z.pow_pos_nonneg; lia).
  assert (Hq : 1 <= Z.shiftr z e).
  { rewrite Z.shiftr_div_pow2 by lia.
    apply Z.div_le_lower_bound; [lia|]. rewrite Z.mul_1_r.
    transitivity (2 ^ Z.log2 z);
      [apply Z.pow_le_mono_r; lia | apply Z.log2_spec; lia]. }
  destruct (_ || _); nia.
Qed.

Lemma to_double_exact (z : Z) : z < 2 ^ 53 -> to_double z = exact z.
Proof. intros Hz. unfold to_double. by rewrite nearest_double_small. Qed.

Lemma exact_plus (a b : Z) : exact (a + b) = (exact a + exact b)%Qc.
Proof.
  unfold exact. apply Qc_is_canon. simpl.
  rewrite !Qred_correct, inject_Z_plus. reflexivity.
Qed.

Lemma exact_mult (a b : Z) : exact (a * b) = (exact a * exact b)%Qc.
Proof.
  unfold exact. apply Qc_is_canon. simpl.
  rewrite !Qred_correct, inject_Z_mult. reflexivity.
Qed.

Lemma exact_pos (a : Z) : 0 < a -> exact a <> 0%Qc.
Proof.
  intros Ha E. apply (f_equal Qcanon.this) in E. unfold exact in E. simpl in E.
  assert (H : Qred (inject_Z a) == 0) by (rewrite E; reflexivity).
  rewrite Qred_correct in H. unfold Qeq in H. simpl in H. lia.
Qed.

Lemma exact_nonneg (z : Z) : 0 <= z -> (0 <= exact z)%Qc.
Proof.
  intros Hz. unfold exact, Qcle. cbn [Qcanon.this Q2Qc].
  rewrite !Qred_correct. unfold Qle. simpl. lia.
Qed.

Lemma to_double_pos (a : Z) : 0 < a -> to_double a <> 0%Qc.
Proof. intros Ha. apply exact_pos, nearest_double_pos, Ha. Qed.

Lemma to_double_nonneg (z : Z) : 0 <= z -> (0 <= to_double z)%Qc.
Proof. intros Hz. apply exact_nonneg, nearest_double_nonneg, Hz. Qed.

(** ** The empirical path of [estimatedUsage] *)

(** As long as the shift stays inside [int] (an exponent below 31), the
    empirical path returns the merged session usage scaled by
    [1 / 2^(maxFailures + 1 - min(failureTimes, maxFailures))], and caches
    it. *)
Lemma estimatedUsage_empirical (env : EstimateEnv) (dev : DeviceSpec)
    (t : ExecTask) (rm : ResourceMap) :
  0 < failureTimes t ->
  session_usage env = Some rm ->
  INT_MIN <= maxFailures t < INT_MAX ->
  exponent t < 31 ->
  let r := scale (merge (temporary rm) (persistant rm))
                 (1 / to_double (2 ^ exponent t))%Qc in
  value (estimatedUsage env dev t) = Some r /\
  (cachedUsage <$> state_after (estimatedUsage env dev t))
    = Some (<[dev := r]> (cachedUsage t)).
Proof.
  intros Hk Hrm HM Hexp r.
  assert (Hf : (if maxFailures t <? failureTimes t
                then maxFailures t else failureTimes t) = clamped t).
  { unfold clamped. destruct (Z.ltb_spec (maxFailures t) (failureTimes t)); lia. }
  assert (Hexp1 : 1 <= exponent t) by (unfold exponent, clamped; lia).
  unfold estimatedUsage, estimate_from_session, bind, get, value, state_after.
  simpl.
  replace (0 <? failureTimes t) with true by (symmetry; apply Z.ltb_lt; lia).
  simpl. rewrite Hrm. simpl.
  unfold int_val, defined.
  destruct (maxFailures t <? failureTimes t) eqn:Hlt; simpl;
    rewrite (in_int_true (maxFailures t + 1)) by (unfold INT_MIN, INT_MAX in *; lia);
    simpl; fold (exponent t) in *;
    [ replace (maxFailures t + 1 - maxFailures t) with (exponent t)
        by (unfold exponent; rewrite <- Hf; reflexivity)
    | replace (maxFailures t + 1 - failureTimes t) with (exponent t)
        by (unfold exponent; rewrite <- Hf; reflexivity) ];
    rewrite (in_int_true (exponent t)) by (unfold INT_MIN, INT_MAX; lia);
    simpl; rewrite int_shl1_small by lia; simpl;
    rewrite to_uint64_pow2 by lia;
    rewrite lookup_insert_eq; simpl; split; reflexivity.
Qed.

(** Scenario S2: with [maxFailures = 4] after the first failure, 1000 + 200
    bytes are scaled by 1/16 to 75. *)
Example estimatedUsage_S2 :
  value (estimatedUsage env_S2 gpu0 (fresh_task 4 1))
    = Some {[ mem gpu0 := to_double 75 ]}.
Proof. compute_done. Qed.

(** C1 (the code departs from the claim).  The scale is computed as
    [1 << (maxFailures + 1 - f)] on [int] and only then widened to
    [uint64_t].  With [maxFailures = 31] after the first failure the shift
    is [1 << 31 = INT_MIN], which widens to [2^64 - 2^31]: the merged usage
    of 1200 is divided by that number and not by [2^31]. *)
Theorem estimatedUsage_shift_overflow :
  value (estimatedUsage env_S2 gpu0 (fresh_task 31 1))
    = Some {[ mem gpu0 := (to_double 1200 / to_double (2 ^ 64 - 2 ^ 31))%Qc ]}
  /\ value (estimatedUsage env_S2 gpu0 (fresh_task 31 1))
    <> Some (scale (merge (temporary session_S2) (persistant session_S2))
                   (1 / to_double (2 ^ 31))%Qc)
  /\ result (estimatedUsage env_S2 gpu0 (fresh_task 32 1)) = Crash Undefined.
Proof. split; [compute_done | split; [compute_done | vm_compute; reflexivity]]. Qed.

(** ** The shape-inference path of [estimatedUsage] *)

Lemma count_dims_mod (dims : list (option Z)) (count : Z) :
  (count_dims dims count).2 mod 2 ^ 64 = (count * known_product dims) mod 2 ^ 64.
Proof.
  revert count. induction dims as [|[v|] ds IH]; intros count; simpl.
  - by rewrite Z.mul_1_r.
  - rewrite IH. unfold to_uint64.
    rewrite Z.mul_mod_idemp_l by lia.
    replace (count * (v mod 2 ^ 64) * known_product ds)
      with ((v mod 2 ^ 64) * (count * known_product ds)) by ring.
    rewrite Z.mul_mod_idemp_l by lia. f_equal. ring.
  - specialize (IH count).
    destruct (count_dims ds count) as [w c]. done.
Qed.

Lemma subtotal_of_count_dims (dims : list (option Z)) (size : Z) :
  subtotal_of (count_dims dims 1).2 size
    = to_double ((known_product dims * size) mod 2 ^ 64).
Proof.
  unfold subtotal_of, to_uint64. f_equal.
  rewrite Z.mul_mod_idemp_r by lia.
  rewrite <- Z.mul_mod_idemp_l by lia.
  rewrite count_dims_mod, Z.mul_1_l.
  rewrite Z.mul_mod_idemp_l by lia. done.
Qed.

(** Both tags of the loop being the same tag, every output of known rank is
    charged to it, whatever the memory types say. *)
Lemma estimate_outputs_value (outs : list OutputInfo) (i : nat) (mtypeOk : bool)
    (mts : list MemoryType) (tag : ResourceTag) (res : Resources) :
  (estimate_outputs i outs mtypeOk mts tag tag res).2
    = charge_all tag (contributions outs) res.
Proof.
  revert i res. induction outs as [|o outs IH]; intros i res; simpl; [done|].
  unfold contributions, contribution at 1. simpl.
  destruct (shape o) as [dims|] eqn:Hs.
  - destruct (count_dims dims 1) as [w1 count] eqn:Hc.
    pose proof (subtotal_of_count_dims dims (dtype_size o)) as Hsub.
    rewrite Hc in Hsub. simpl in Hsub.
    match goal with |- context [if ?b then ?x else ?y] =>
      replace (if b then x else y) with x by (destruct b; reflexivity) end.
    specialize (IH (S i) (charge res tag (subtotal_of count (dtype_size o)))).
    destruct (estimate_outputs (S i) outs mtypeOk mts tag tag _) as [w2 r].
    simpl in *. rewrite IH, Hsub. done.
  - specialize (IH (S i) res).
    destruct (estimate_outputs (S i) outs mtypeOk mts tag tag res) as [w r].
    simpl in *. done.
Qed.

Lemma charge_all_cons (tag : ResourceTag) (c : Qc) (cs : list Qc) (res : Resources) :
  charge_all tag (c :: cs) res
    = <[tag := (default 0%Qc (res !! tag) + total (c :: cs))%Qc]> res.
Proof.
  revert c res. induction cs as [|c' cs IH]; intros c res.
  - simpl. unfold charge. f_equal. ring.
  - change (charge_all tag (c :: c' :: cs) res)
      with (charge_all tag (c' :: cs) (charge res tag c)).
    rewrite IH. unfold charge. rewrite lookup_insert_eq, insert_insert_eq.
    f_equal. simpl. ring.
Qed.

Lemma charge_all_empty (dev : DeviceSpec) (outs : list OutputInfo) :
  charge_all (mkResourceTag MEMORY dev) (contributions outs) ∅ = shape_estimate dev outs.
Proof.
  unfold shape_estimate. destruct (contributions outs) as [|c cs]; [done|].
  rewrite charge_all_cons, lookup_empty. simpl.
  rewrite Qcplus_0_l. done.
Qed.

Lemma known_product_known (ds : list Z) :
  known_product (Some <$> ds) = foldr Z.mul 1 ds.
Proof.
  induction ds as [|d ds IH]; [done|].
  change (d * known_product (Some <$> ds) = d * foldr Z.mul 1 ds).
  by rewrite IH.
Qed.

(** The warnings of the loop over the outputs. *)
Lemma count_dims_warns (dims : list (option Z)) (count : Z) :
  None ∈ dims -> EvWarn UnknownDim ∈ (count_dims dims count).1.
Proof.
  revert count. induction dims as [|[v|] ds IH]; intros count Hin; simpl.
  - by apply elem_of_nil in Hin.
  - apply IH. apply elem_of_cons in Hin as [?|?]; [done | assumption].
  - destruct (count_dims ds count). simpl. apply elem_of_cons. by left.
Qed.

Lemma estimate_outputs_warns (outs : list OutputInfo) (i : nat) (mtypeOk : bool)
    (mts : list MemoryType) (devTag cpuTag : ResourceTag) (res : Resources)
    (j : nat) (o : OutputInfo) :
  outs !! j = Some o ->
  match shape o with
  | None => EvWarn (UnknownRank (i + j)) ∈
              (estimate_outputs i outs mtypeOk mts devTag cpuTag res).1
  | Some dims => None ∈ dims ->
      EvWarn UnknownDim ∈ (estimate_outputs i outs mtypeOk mts devTag cpuTag res).1
  end.
Proof.
  revert i res j. induction outs as [|o' outs IH]; intros i res j Hj; [done|].
  destruct j as [|j]; simpl in Hj.
  - injection Hj as ->. simpl. destruct (shape o) as [dims|].
    + intros Hin. pose proof (count_dims_warns dims 1 Hin) as Hw.
      destruct (count_dims dims 1) as [w1 c]. simpl in Hw.
      destruct (estimate_outputs (S i) outs _ _ _ _ _) as [w2 r]. simpl.
      apply elem_of_app. by left.
    + destruct (estimate_outputs (S i) outs _ _ _ _ _) as [w r]. simpl.
      rewrite Nat.add_0_r. apply elem_of_cons. by left.
  - simpl. destruct (shape o') as [dims'|].
    + destruct (count_dims dims' 1) as [w1 c].
      match goal with |- context [estimate_outputs (S i) outs ?a ?b ?c ?d ?e] =>
        specialize (IH (S i) e j Hj);
        destruct (estimate_outputs (S i) outs a b c d e) as [w2 r] end.
      simpl in *. replace (i + S j)%nat with (S i + j)%nat by lia.
      destruct (shape o); [intros Hin|]; apply elem_of_app; right; auto.
    + specialize (IH (S i) res j Hj).
      destruct (estimate_outputs (S i) outs _ _ _ _ res) as [w r].
      simpl in *. replace (i + S j)%nat with (S i + j)%nat by lia.
      destruct (shape o); [intros Hin|]; apply elem_of_cons; right; auto.
Qed.

(** When the short-cut does not apply, it leaves the task alone. *)
Lemma ok_OK : ok OK = true.
Proof. reflexivity. Qed.

(** Reduction of the monad's plumbing, and of nothing else. *)
Ltac mred :=
  cbn [bind modify get emit lift ret crash assert defined int_val
       value state_after result trace fst snd app
       set_failureTimes set_cachedUsage set_rctx set_ditem set_op_kernel
       set_kernel_is_async set_has_ref_input set_outputs set_completed
       supportedTypes maxFailures failureTimes cachedUsage rctx ditem op_kernel
       kernel_is_async has_ref_input outputs completed
       item_device device_record_tensor_access].

(** When the short-cut does not apply, it leaves the task alone. *)
Lemma estimate_from_session_skipped (env : EstimateEnv) (dev : DeviceSpec) (t : ExecTask) :
  failureTimes t <= 0 \/ session_usage env = None ->
  exists tr, estimate_from_session env dev t = (tr, Ret tt t).
Proof.
  intros H. unfold estimate_from_session. mred.
  destruct (Z.ltb_spec 0 (failureTimes t)) as [Hpos|Hle]; mred.
  - destruct H as [?| ->]; [lia|]. mred. eauto.
  - eauto.
Qed.

Lemma estimate_from_shapes_value (env : EstimateEnv) (dev : DeviceSpec) (t : ExecTask)
    (outs : list OutputInfo) :
  shapeForNode env = Some outs ->
  exists pre b mts,
    estimate_from_shapes env dev t
      = (pre ++ (estimate_outputs 0 outs b mts (mkResourceTag MEMORY dev)
                                  (mkResourceTag MEMORY dev) ∅).1,
         Ret (shape_estimate dev outs)
             (set_cachedUsage (<[dev := shape_estimate dev outs]> (cachedUsage t)) t)).
Proof.
  intros Hs. unfold estimate_from_shapes. rewrite Hs. unfold LookupDevice.
  destruct (est_deviceMgr env (device_name dev)) as [s d].
  destruct (ok s) eqn:Hok; mred; rewrite ?ok_OK, ?Hok; mred.
  - destruct (MemoryTypesForNode env (device_type d)) as [s' mt]. mred.
    pose proof (estimate_outputs_value outs 0 (ok (Update OK s')) mt
                  (mkResourceTag MEMORY dev) ∅) as Hv.
    rewrite charge_all_empty in Hv.
    destruct (estimate_outputs 0 outs (ok (Update OK s')) mt _ _ ∅) as [w r] eqn:He.
    cbn [snd] in Hv. subst r.
    destruct (ok (Update OK s')) eqn:Hu; mred; rewrite insert_insert_eq.
    + exists [EvShapeForNode; EvLookupDevice (device_name dev);
              EvMemoryTypesForNode (device_type d)], true, mt.
      rewrite He. mred. rewrite ?app_nil_r. reflexivity.
    + exists [EvShapeForNode; EvLookupDevice (device_name dev);
              EvMemoryTypesForNode (device_type d);
              EvWarn (KernelNotFoundOnDevice dev)], false, mt.
      rewrite He. mred. rewrite ?app_nil_r. reflexivity.
  - pose proof (estimate_outputs_value outs 0 false []
                  (mkResourceTag MEMORY dev) ∅) as Hv.
    rewrite charge_all_empty in Hv.
    destruct (estimate_outputs 0 outs false [] _ _ ∅) as [w r] eqn:He.
    cbn [snd] in Hv. subst r. mred. rewrite !Hok. mred. rewrite He. mred.
    rewrite insert_insert_eq.
    exists [EvShapeForNode; EvLookupDevice (device_name dev);
            EvErr (CannotFindDevice dev); EvWarn (KernelNotFoundOnDevice dev)], false, [].
    rewrite He. mred. rewrite ?app_nil_r. reflexivity.
Qed.

(** As long as the byte counts add up to less than [2^53], no conversion to
    [double] rounds: the amounts are the byte counts themselves. *)
Lemma contribution_byte_count (o : OutputInfo) :
  contribution o = to_double <$> byte_count o.
Proof. unfold contribution, byte_count. destruct (shape o); reflexivity. Qed.

Lemma byte_count_nonneg (o : OutputInfo) (b : Z) : byte_count o = Some b -> 0 <= b.
Proof.
  unfold byte_count. destruct (shape o) as [dims|]; [|discriminate].
  intros [= <-]. apply Z.mod_pos_bound. reflexivity.
Qed.

Lemma total_bytes_cons (o : OutputInfo) (outs : list OutputInfo) :
  total_bytes (o :: outs)
    = match byte_count o with
      | Some b => b + total_bytes outs
      | None => total_bytes outs
      end.
Proof. unfold total_bytes. cbn [omap list_omap]. by destruct (byte_count o). Qed.

Lemma total_bytes_nonneg (outs : list OutputInfo) : 0 <= total_bytes outs.
Proof.
  induction outs as [|o outs IH]; [done|]. rewrite total_bytes_cons.
  destruct (byte_count o) as [b|] eqn:Hb; [|exact IH].
  apply byte_count_nonneg in Hb. lia.
Qed.

Lemma byte_count_le_total (outs : list OutputInfo) (i : nat) (o : OutputInfo) (b : Z) :
  outs !! i = Some o -> byte_count o = Some b -> b <= total_bytes outs.
Proof.
  revert i. induction outs as [|o' outs IH]; intros i Hi Hb; [done|].
  rewrite total_bytes_cons. destruct i as [|i]; cbn in Hi.
  - injection Hi as ->. rewrite Hb. pose proof (total_bytes_nonneg outs). lia.
  - specialize (IH i Hi Hb). destruct (byte_count o') as [b'|] eqn:Hb'; [|exact IH].
    apply byte_count_nonneg in Hb'. lia.
Qed.

Lemma total_contributions_exact (outs : list OutputInfo) :
  total_bytes outs < 2 ^ 53 -> total (contributions outs) = exact (total_bytes outs).
Proof.
  induction outs as [|o outs IH]; intros Hlt; [reflexivity|].
  rewrite total_bytes_cons in *. unfold contributions in *.
  cbn [omap list_omap]. rewrite contribution_byte_count.
  pose proof (total_bytes_nonneg outs) as Hnn.
  destruct (byte_count o) as [b|] eqn:Hb; cbn [fmap option_fmap option_map].
  - apply byte_count_nonneg in Hb.
    cbn [total foldr]. fold (total (omap contribution outs)).
    rewrite IH, to_double_exact, exact_plus by lia. reflexivity.
  - apply IH, Hlt.
Qed.

(** C8 (as amended).  In the shape-inference path an output whose rank is
    unknown adds nothing and is reported by a warning; an output whose rank
    is known adds the product of its known dimensions times the size of its
    element type, computed in [size_t]: a dimension of unknown value is
    reported by a warning and left out of the product, it does not void the
    output.  The estimate is the sum of these amounts under the one tag
    [(MEMORY, dev)], or the empty map when no output has a known rank.  This
    holds as long as the amounts add up to less than [2^53] bytes, the
    range in which their conversion to [double] is exact. *)
Theorem estimatedUsage_shape_path (env : EstimateEnv) (dev : DeviceSpec)
    (t : ExecTask) (outs : list OutputInfo) :
  shape_path_taken env dev t ->
  shapeForNode env = Some outs ->
  total_bytes outs < 2 ^ 53 ->
  value (estimatedUsage env dev t) = Some (shape_estimate dev outs)
  /\ total (contributions outs) = exact (total_bytes outs)
  /\ (forall i o, outs !! i = Some o -> shape o = None ->
        contribution o = None
        /\ EvWarn (UnknownRank i) ∈ trace (estimatedUsage env dev t))
  /\ (forall i o dims, outs !! i = Some o -> shape o = Some dims ->
        contribution o
          = Some (exact ((known_product dims * dtype_size o) mod 2 ^ 64))
        /\ (None ∈ dims -> EvWarn UnknownDim ∈ trace (estimatedUsage env dev t))).
Proof.
  intros [Hskip Hcache] Hs Hlt.
  destruct (estimate_from_session_skipped env dev t Hskip) as [tr0 H0].
  destruct (estimate_from_shapes_value env dev t outs Hs) as (pre & b & mts & H1).
  assert (Hrun : estimatedUsage env dev t
                 = (tr0 ++ pre ++ (estimate_outputs 0 outs b mts (mkResourceTag MEMORY dev)
                                                    (mkResourceTag MEMORY dev) ∅).1,
                    Ret (shape_estimate dev outs)
                        (set_cachedUsage (<[dev := shape_estimate dev outs]> (cachedUsage t)) t))).
  { unfold estimatedUsage, bind at 1. rewrite H0.
    unfold bind, get. simpl. rewrite Hcache, H1. reflexivity. }
  rewrite Hrun. unfold value, trace. simpl. split; [done|].
  split; [by apply total_contributions_exact|]. split.
  - intros i o Hi Ho. split; [unfold contribution; by rewrite Ho|].
    pose proof (estimate_outputs_warns outs 0 b mts (mkResourceTag MEMORY dev)
                  (mkResourceTag MEMORY dev) ∅ i o Hi) as Hw.
    rewrite Ho in Hw. simpl in Hw.
    apply elem_of_app; right. apply elem_of_app; right. exact Hw.
  - intros i o dims Hi Ho. split.
    + assert (Hb : byte_count o
                   = Some ((known_product dims * dtype_size o) mod 2 ^ 64))
        by (unfold byte_count; by rewrite Ho).
      pose proof (byte_count_le_total outs i o _ Hi Hb) as Hle.
      rewrite contribution_byte_count, Hb. cbn [fmap option_fmap option_map].
      rewrite to_double_exact by lia. reflexivity.
    + intros Hin.
      pose proof (estimate_outputs_warns outs 0 b mts (mkResourceTag MEMORY dev)
                    (mkResourceTag MEMORY dev) ∅ i o Hi) as Hw.
      rewrite Ho in Hw.
      apply elem_of_app; right. apply elem_of_app; right. exact (Hw Hin).
Qed.

Lemma estimatedUsage_shape_path_witness :
  shape_path_taken env_S1 cpu0 (fresh_task 4 0)
  /\ total_bytes [mkOutputInfo (Some [Some 2; Some 3]) 4] < 2 ^ 53
  /\ value (estimatedUsage env_S1 cpu0 (fresh_task 4 0))
       = Some (shape_estimate cpu0 [mkOutputInfo (Some [Some 2; Some 3]) 4]).
Proof.
  assert (H : shape_path_taken env_S1 cpu0 (fresh_task 4 0)).
  { split; [left; simpl; lia | reflexivity]. }
  assert (Hlt : total_bytes [mkOutputInfo (Some [Some 2; Some 3]) 4] < 2 ^ 53)
    by (vm_compute; reflexivity).
  split; [exact H|]. split; [exact Hlt|].
  exact (proj1 (estimatedUsage_shape_path env_S1 cpu0 (fresh_task 4 0) _ H eq_refl Hlt)).
Defined.

Example estimatedUsage_S1 :
  value (estimatedUsage env_S1 cpu0 (fresh_task 4 0))
    = Some {[ mem cpu0 := to_double 24 ]}.
Proof. compute_done. Qed.

(** C8 (counterexample to the claim as stated).  The output of shape
    [[2,?]] does not contribute zero: it is charged 2 * 4 = 8 bytes. *)
Lemma partially_known_output_is_charged :
  value (estimatedUsage env_partial gpu0 (fresh_task 4 0))
    = Some {[ mem gpu0 := to_double 8 ]}
  /\ value (estimatedUsage env_partial gpu0 (fresh_task 4 0)) <> Some ∅
  /\ to_double 8 <> 0%Qc.
Proof. repeat split; compute_done. Qed.

(** A fully known shape whose byte count does not fit [size_t] wraps
    around: [2^32 * 2^32] one-byte elements are charged 0 bytes. *)
Example huge_output_wraps :
  contribution (mkOutputInfo (Some [Some (2 ^ 32); Some (2 ^ 32)]) 1)
    = Some (to_double 0).
Proof. compute_done. Qed.

(** Beyond [2^53] the conversion to [double] rounds: [2^53 + 1] one-byte
    elements are charged [2^53] bytes. *)
Example large_output_is_rounded :
  contribution (mkOutputInfo (Some [Some (2 ^ 53 + 1)]) 1) = Some (exact (2 ^ 53)).
Proof. compute_done. Qed.

(** C3 (the code departs from the claim).  [cpuTag] is built from [dev] like
    [devTag], so the 24 bytes of a [HOST_MEMORY] output estimated for [gpu0]
    are charged to [(MEMORY, gpu0)]; nothing is charged to [(MEMORY, cpu0)],
    although the memory-type lookup succeeded. *)
Theorem host_output_charged_to_device :
  value (estimatedUsage env_host gpu0 (fresh_task 4 0))
    = Some {[ mem gpu0 := to_double 24 ]}
  /\ (value (estimatedUsage env_host gpu0 (fresh_task 4 0)) ≫= (.!! mem cpu0)) = None
  /\ mem cpu0 <> mem gpu0
  /\ trace (estimatedUsage env_host gpu0 (fresh_task 4 0))
       = [EvShapeForNode; EvLookupDevice "GPU:0"; EvMemoryTypesForNode "GPU"].
Proof.
  split; [compute_done|]. split; [compute_done|]. split; [compute_done|].
  vm_compute. reflexivity.
Qed.

(** Whatever the memory types, the shape path never charges a tag other
    than [(MEMORY, dev)]. *)
Lemma shape_estimate_only_dev (dev : DeviceSpec) (outs : list OutputInfo)
    (tag : ResourceTag) :
  tag <> mkResourceTag MEMORY dev -> shape_estimate dev outs !! tag = None.
Proof.
  intros Hne. unfold shape_estimate.
  destruct (contributions outs); [apply lookup_empty|].
  by apply lookup_singleton_ne.
Qed.

(** ** Memoization of [estimatedUsage] *)

(** With a cached entry and no failure so far, a call answers from the
    cache: no collaborator is consulted and the task is unchanged. *)
Lemma estimatedUsage_cached (env : EstimateEnv) (dev : DeviceSpec) (t : ExecTask)
    (r : Resources) :
  failureTimes t <= 0 -> cachedUsage t !! dev = Some r ->
  estimatedUsage env dev t = ([], Ret r t).
Proof.
  intros Hk Hc. unfold estimatedUsage, estimate_from_session, bind, get. simpl.
  replace (0 <? failureTimes t) with false by (symmetry; apply Z.ltb_ge; lia).
  simpl. rewrite Hc. reflexivity.
Qed.

(** A call of a task that has not failed leaves its answer in the cache. *)
Lemma estimatedUsage_caches (env : EstimateEnv) (dev : DeviceSpec) (t : ExecTask) :
  failureTimes t <= 0 ->
  exists r t1, result (estimatedUsage env dev t) = Ret r t1
    /\ failureTimes t1 = failureTimes t
    /\ cachedUsage t1 !! dev = Some r.
Proof.
  intros Hk. destruct (cachedUsage t !! dev) as [r|] eqn:Hc.
  - rewrite (estimatedUsage_cached env dev t r Hk Hc). eauto.
  - destruct (estimate_from_session_skipped env dev t (or_introl Hk)) as [tr0 H0].
    unfold estimatedUsage, bind at 1. rewrite H0.
    unfold bind, get. simpl. rewrite Hc.
    destruct (shapeForNode env) as [outs|] eqn:Hs.
    + destruct (estimate_from_shapes_value env dev t outs Hs) as (pre & b & mts & H1).
      rewrite H1. unfold result. simpl. eexists _, _. split; [reflexivity|].
      split; [reflexivity|]. simpl. apply lookup_insert_eq.
    + unfold estimate_from_shapes, bind, modify, emit. simpl. rewrite Hs.
      unfold result. simpl. eexists _, _. split; [reflexivity|].
      split; [reflexivity|]. simpl. apply lookup_insert_eq.
Qed.

(** C9 (as amended).  For a task that has not failed yet, and for every
    device, a second call of [estimatedUsage] returns the map of the first;
    it is served from [cachedUsage[dev]]: it consults no collaborator
    (neither session tracker nor shape inference, whatever they would answer
    by then) and changes nothing in the task. *)
Theorem estimatedUsage_memoized (env1 env2 : EstimateEnv) (dev : DeviceSpec)
    (t : ExecTask) :
  failureTimes t = 0 ->
  exists r t1,
    result (estimatedUsage env1 dev t) = Ret r t1
    /\ cachedUsage t1 !! dev = Some r
    /\ estimatedUsage env2 dev t1 = ([], Ret r t1).
Proof.
  intros Hk.
  destruct (estimatedUsage_caches env1 dev t) as (r & t1 & Hr & Hf & Hc); [lia|].
  exists r, t1. split; [exact Hr|]. split; [exact Hc|].
  apply estimatedUsage_cached; [lia | exact Hc].
Qed.

Lemma estimatedUsage_memoized_witness :
  failureTimes (fresh_task 4 0) = 0
  /\ exists r t1,
    result (estimatedUsage env_S1 cpu0 (fresh_task 4 0)) = Ret r t1
    /\ cachedUsage t1 !! cpu0 = Some r
    /\ estimatedUsage env_partial cpu0 t1 = ([], Ret r t1).
Proof.
  split; [reflexivity|].
  exact (estimatedUsage_memoized env_S1 env_partial cpu0 (fresh_task 4 0) eq_refl).
Defined.

(** What comes first in a sequence comes first in its trace. *)
Lemma trace_bind {A B} (m : M A) (k : A -> M B) (t : ExecTask) :
  exists tr, trace (bind m k t) = trace (m t) ++ tr.
Proof.
  unfold bind, trace. destruct (m t) as [tr1 [a t1|f]]; cbn [fst].
  - destruct (k a t1) as [tr2 r2]. cbn [fst]. eauto.
  - exists []. by rewrite app_nil_r.
Qed.

(** Once the task has failed, every call starts by asking the session
    tracker. *)
Lemma estimatedUsage_asks_tracker (env : EstimateEnv) (dev : DeviceSpec) (t : ExecTask) :
  0 < failureTimes t ->
  exists tr, trace (estimatedUsage env dev t) = EvSessionUsage :: tr.
Proof.
  intros Hk. unfold estimatedUsage.
  destruct (trace_bind (estimate_from_session env dev)
              (fun _ => t0 <- get;;
                 match cachedUsage t0 !! dev with
                 | Some r => ret r
                 | None => estimate_from_shapes env dev
                 end) t) as [tr1 ->].
  unfold estimate_from_session at 1.
  unfold bind at 1, get at 1. cbn [fst snd].
  replace (0 <? failureTimes t) with true by (symmetry; apply Z.ltb_lt; lia).
  match goal with |- context [trace (let (tr', r) := bind (emit EvSessionUsage) ?k t in _)] =>
    destruct (trace_bind (emit EvSessionUsage) k t) as [tr2 H2];
    destruct (bind (emit EvSessionUsage) k t) as [tr3 r3] end.
  unfold trace in *. cbn [fst emit] in *. subst tr3. cbn [app]. eauto.
Qed.

(** C9 (counterexample to the claim as stated).  After one failure, and
    with no further failure in between (the count stays 1), the second of
    two calls for [gpu0] asks the session tracker again and returns what the
    tracker reports by then, not the cached map of the first call. *)
Lemma estimatedUsage_recomputed_after_failure :
  match result (estimatedUsage env_S2 gpu0 (fresh_task 4 1)) with
  | Ret r1 t1 =>
      failureTimes t1 = 1
      /\ cachedUsage t1 !! gpu0 = Some r1
      /\ trace (estimatedUsage env_S2_later gpu0 t1) = [EvSessionUsage]
      /\ value (estimatedUsage env_S2_later gpu0 t1) <> Some r1
  | Crash _ => False
  end.
Proof.
  vm_compute result.
  split; [reflexivity|]. split; [compute_done|].
  split; [vm_compute; reflexivity | compute_done].
Qed.

(** ** [prepare] and [releasePreAllocation] *)

Lemma none_of_spec (ty : DeviceType) (l : list DeviceType) :
  forallb (fun ty' => negb (bool_decide (ty' = ty))) l = true <-> ty ∉ l.
Proof.
  induction l as [|x l IH]; simpl.
  - split; [intros _; apply not_elem_of_nil | done].
  - rewrite andb_true_iff, IH, not_elem_of_cons, negb_true_iff, bool_decide_eq_false.
    split; intros [? ?]; split; congruence.
Qed.

Ltac run_prepare := unfold prepare, LookupDevice; mred.

(** C6 (as amended).  [prepare] returns [false], and calls nothing on the
    resource monitor (no reserve, no allocate, no free), when the device
    type of the context is not supported, when the device is not found, or
    when the kernel cache holds a kernel of the node made on another device
    and the context carries its monitor (as [prepare] asserts once the
    device is found; or assertions are compiled out); the kernel is then
    neither deleted nor kept by the task. *)
Theorem prepare_rejects (env : PrepareEnv) (ctx : ResourceContext) (t : ExecTask) :
  unsupported t ctx
  \/ lookup_fails env ctx
  \/ (kernel_elsewhere env ctx /\ (prep_NDEBUG env = true \/ resMon ctx <> None)) ->
  exists t',
    result (prepare env ctx t) = Ret false t'
    /\ Forall (fun e => is_monitor_op e = false) (trace (prepare env ctx t))
    /\ Forall (fun e => is_kernel_delete e = false) (trace (prepare env ctx t))
    /\ (~ unsupported t ctx -> ~ lookup_fails env ctx -> op_kernel t' = None).
Proof.
  intros Hwhy. unfold unsupported, lookup_fails, kernel_elsewhere in *.
  rewrite <- none_of_spec in *.
  run_prepare.
  destruct (forallb _ (supportedTypes t)) eqn:Hsup; mred.
  { eexists. split; [reflexivity|]. split; [constructor|]. split; [constructor|].
    intros H; destruct H; by apply none_of_spec. }
  destruct (prep_deviceMgr env (device_name (spec ctx))) as [s d] eqn:Hd.
  cbn [fst snd] in *.
  destruct (ok s) eqn:Hok; mred; rewrite ?Hok, ?ok_OK; cbn [negb]; mred.
  2:{ eexists. split; [reflexivity|].
      split; [repeat constructor|]. split; [repeat constructor|].
      intros _ H; by destruct H. }
  destruct Hwhy as [?|[?|[(devName & k & Hfk & Hne) Hmon]]]; [done..|].
  assert (Ha : prep_NDEBUG env || bool_decide (resMon ctx <> None) = true).
  { destruct Hmon as [->|Hm]; [done|]. rewrite bool_decide_eq_true_2 by done.
    by rewrite orb_true_r. }
  unfold assert. rewrite Ha, Hfk. mred. rewrite ok_OK.
  rewrite (bool_decide_eq_true_2 (Some k <> None)) by done. cbn [andb]. mred.
  destruct (bool_decide (devName = "")); mred.
  { eexists. split; [reflexivity|].
    split; [repeat constructor|]. split; [repeat constructor|]. done. }
  rewrite bool_decide_eq_false_2 by done. mred.
  eexists. split; [reflexivity|].
  split; [repeat constructor|]. split; [repeat constructor|]. done.
Qed.

Lemma prepare_rejects_witness :
  (unsupported (fresh_task 4 0) ctx_gpu0
   \/ lookup_fails env_S3 ctx_gpu0
   \/ (kernel_elsewhere env_S3 ctx_gpu0
       /\ (prep_NDEBUG env_S3 = true \/ resMon ctx_gpu0 <> None)))
  /\ exists t',
    result (prepare env_S3 ctx_gpu0 (fresh_task 4 0)) = Ret false t'
    /\ Forall (fun e => is_monitor_op e = false)
              (trace (prepare env_S3 ctx_gpu0 (fresh_task 4 0)))
    /\ Forall (fun e => is_kernel_delete e = false)
              (trace (prepare env_S3 ctx_gpu0 (fresh_task 4 0)))
    /\ (~ unsupported (fresh_task 4 0) ctx_gpu0 -> ~ lookup_fails env_S3 ctx_gpu0 ->
        op_kernel t' = None).
Proof.
  assert (H : unsupported (fresh_task 4 0) ctx_gpu0
              \/ lookup_fails env_S3 ctx_gpu0
              \/ (kernel_elsewhere env_S3 ctx_gpu0
                  /\ (prep_NDEBUG env_S3 = true \/ resMon ctx_gpu0 <> None))).
  { right. right. split.
    - exists "/device:CPU:0", variable_kernel.
      split; [reflexivity | vm_compute; discriminate].
    - right. simpl. discriminate. }
  split; [exact H|].
  exact (prepare_rejects env_S3 ctx_gpu0 (fresh_task 4 0) H).
Defined.

(** C6 (counterexample to the claim as stated).  Scenario S3 with a context
    that carries no monitor, assertions compiled in: the kernel of the node
    was made on [cpu0] and the task is offered [gpu0], but [prepare] does
    not return [false]: it stops at [assert(rctx.resMon != nullptr)], before
    the kernel cache is asked. *)
Lemma prepare_without_monitor_aborts :
  kernel_elsewhere env_S3 (mkResourceContext gpu0 7 None)
  /\ prepare env_S3 (mkResourceContext gpu0 7 None) (fresh_task 4 0)
     = ([EvLookupDevice "GPU:0"], Crash AssertionFailed)
  /\ (forall t', result (prepare env_S3 (mkResourceContext gpu0 7 None) (fresh_task 4 0))
                 <> Ret false t').
Proof.
  assert (E : prepare env_S3 (mkResourceContext gpu0 7 None) (fresh_task 4 0)
              = ([EvLookupDevice "GPU:0"], Crash AssertionFailed))
    by (vm_compute; reflexivity).
  split; [|split; [exact E|]].
  - exists "/device:CPU:0", variable_kernel.
    split; [reflexivity | vm_compute; discriminate].
  - intros t'. rewrite E. discriminate.
Qed.

Example prepare_S3 :
  trace (prepare env_S3 ctx_gpu0 (fresh_task 4 0))
    = [EvLookupDevice "GPU:0"; EvSetResourceContext ctx_gpu0; EvFindKernel].
Proof. vm_compute. reflexivity. Qed.

(** C10.  [prepare] stores its argument in [rctx] before it validates
    anything: in whatever way it returns, the task then holds [ctx] and no
    longer the context it held before.  A following [releasePreAllocation]
    therefore acts on [ctx]: it frees the ticket of [ctx] on the monitor of
    [ctx], and not the ticket the task held from an earlier [prepare]. *)
Theorem prepare_replaces_context (env : PrepareEnv) (ctx : ResourceContext)
    (t : ExecTask) (r : bool) (t' : ExecTask) :
  result (prepare env ctx t) = Ret r t' ->
  rctx t' = ctx
  /\ (forall mon, resMon ctx = Some mon ->
        trace (releasePreAllocation t') = [EvMonFree mon (ticket ctx)])
  /\ (resMon ctx = None -> trace (releasePreAllocation t') = []).
Proof.
  intros Hr.
  assert (Hctx : rctx t' = ctx).
  { revert Hr. run_prepare.
    destruct (forallb _ (supportedTypes t)); mred; [by intros [= <- <-]|].
    destruct (prep_deviceMgr env (device_name (spec ctx))) as [s d].
    destruct (ok s) eqn:Hok; mred; rewrite ?Hok, ?ok_OK; cbn [negb]; mred;
      [|by intros [= <- <-]].
    unfold assert.
    destruct (prep_NDEBUG env || bool_decide (resMon ctx <> None)); mred;
      [|discriminate].
    destruct (find_kernel env) as [[fk devName] k]. mred.
    destruct (ok fk && bool_decide (k <> None)); mred.
    - destruct (bool_decide (devName = "")); mred; [by intros [= <- <-]|].
      destruct (bool_decide (devName = name d)); mred; by intros [= <- <-].
    - destruct (negb (ok fk)); mred; by intros [= <- <-]. }
  split; [exact Hctx|].
  unfold releasePreAllocation, bind, get, emit, ret, trace. simpl.
  rewrite Hctx. split.
  - intros mon ->. reflexivity.
  - intros ->. reflexivity.
Qed.

Lemma prepare_replaces_context_witness :
  exists t',
    result (prepare env_S3 ctx_gpu0 prepared_on_cpu0) = Ret false t'
    /\ rctx t' = ctx_gpu0
    /\ trace (releasePreAllocation t') = [EvMonFree 1 7].
Proof.
  eexists. split; [vm_compute; reflexivity|].
  pose proof (prepare_replaces_context env_S3 ctx_gpu0 prepared_on_cpu0 false _ eq_refl)
    as (H1 & H2 & _).
  split; [exact H1 | exact (H2 1 eq_refl)].
Defined.

(** ** Traces of [run] *)

Lemma existsb_lookup (p : Event -> bool) (tr : list Event) (i : nat) (a : Event) :
  tr !! i = Some a -> p a = true -> existsb p tr = true.
Proof.
  revert i. induction tr as [|e tr IH]; intros i Hi Hp; [done|].
  destruct i as [|i]; simpl in *.
  - injection Hi as ->. by rewrite Hp.
  - rewrite (IH i Hi Hp). apply orb_true_r.
Qed.

Lemma all_beforeb_sound (p q : Event -> bool) (tr : list Event) :
  all_beforeb p q tr = true -> all_before p q tr.
Proof.
  induction tr as [|e tr IH]; intros H i j a b Hi Hj Hp Hq; [done|].
  simpl in H. apply andb_true_iff in H as [He Hrest].
  destruct j as [|j]; simpl in Hj.
  - injection Hj as ->. rewrite Hq in He. simpl in He.
    apply negb_true_iff in He.
    pose proof (existsb_lookup p (b :: tr) i a Hi Hp) as Hex.
    simpl in Hex. congruence.
  - destruct i as [|i]; [lia|]. simpl in Hi.
    pose proof (IH Hrest i j a b Hi Hj Hp Hq). lia.
Qed.

Lemma some_beforeb_seen (p q : Event -> bool) (tr pre : list Event) (seen : bool) :
  (seen = true -> existsb p pre = true) ->
  some_beforeb p q seen tr = true ->
  forall j b, tr !! j = Some b -> q b = true ->
    exists i a, (i < length pre + j)%nat /\ (pre ++ tr) !! i = Some a /\ p a = true.
Proof.
  revert pre seen. induction tr as [|e tr IH]; intros pre seen Hseen H j b Hj Hq; [done|].
  simpl in H. apply andb_true_iff in H as [He Hrest].
  destruct j as [|j]; simpl in Hj.
  - injection Hj as ->. rewrite Hq in He. simpl in He.
    specialize (Hseen He). apply existsb_exists in Hseen as (a & Hin & Hpa).
    apply list_elem_of_In, list_elem_of_lookup in Hin as [i Hi].
    exists i, a. split; [|split; [|done]].
    + apply lookup_lt_Some in Hi. lia.
    + by apply lookup_app_l_Some.
  - assert (Hs : seen || p e = true -> existsb p (pre ++ [e]) = true).
    { intros Hs. rewrite existsb_app. simpl.
      apply orb_true_iff in Hs as [Hs|Hs];
        [by rewrite Hseen | by rewrite Hs, !orb_true_r]. }
    destruct (IH (pre ++ [e]) (seen || p e) Hs Hrest j b Hj Hq)
      as (i & a & Hlt & Hi & Hpa).
    exists i, a. rewrite <- app_assoc in Hi. simpl in Hi.
    rewrite length_app in Hlt. simpl in Hlt. split; [lia | done].
Qed.

Lemma some_beforeb_sound (p q : Event -> bool) (tr : list Event) :
  some_beforeb p q false tr = true -> some_before p q tr.
Proof.
  intros H j b Hj Hq.
  assert (Hs : false = true -> existsb p [] = true) by discriminate.
  destruct (some_beforeb_seen p q tr [] false Hs H j b Hj Hq)
    as (i & a & Hlt & Hi & Hpa).
  exists i, a. auto.
Qed.

Lemma strictly_beforeb_sound (p q : Event -> bool) (tr : list Event) :
  strictly_beforeb p q tr = true -> strictly_before p q tr.
Proof.
  unfold strictly_beforeb. intros [H1 H2]%andb_true_iff.
  split; [by apply some_beforeb_sound | by apply all_beforeb_sound].
Qed.

(** An event that is neither a [p] nor a [q] can be slipped in anywhere. *)
Lemma existsb_insert (p : Event -> bool) (x : Event) (l1 l2 : list Event) :
  p x = false -> existsb p (l1 ++ x :: l2) = existsb p (l1 ++ l2).
Proof. intros Hx. rewrite !existsb_app. simpl. by rewrite Hx. Qed.

Lemma all_beforeb_insert (p q : Event -> bool) (x : Event) (l1 l2 : list Event) :
  p x = false -> q x = false ->
  all_beforeb p q (l1 ++ x :: l2) = all_beforeb p q (l1 ++ l2).
Proof.
  intros Hp Hq. induction l1 as [|e l1 IH]; simpl.
  - by rewrite Hq.
  - rewrite IH. f_equal. f_equal. f_equal. f_equal.
    by apply existsb_insert.
Qed.

Lemma some_beforeb_insert (p q : Event -> bool) (x : Event) (l1 l2 : list Event)
    (seen : bool) :
  p x = false -> q x = false ->
  some_beforeb p q seen (l1 ++ x :: l2) = some_beforeb p q seen (l1 ++ l2).
Proof.
  intros Hp Hq. revert seen. induction l1 as [|e l1 IH]; intros seen; simpl.
  - by rewrite Hp, Hq, orb_false_r.
  - by rewrite IH.
Qed.

Lemma count_app (p : Event -> bool) (l1 l2 : list Event) :
  count p (l1 ++ l2) = (count p l1 + count p l2)%nat.
Proof. induction l1 as [|e l1 IH]; simpl; [done | rewrite IH; lia]. Qed.

Lemma count_insert (p : Event -> bool) (x : Event) (l1 l2 : list Event) :
  count p (l1 ++ x :: l2) = ((if p x then 1 else 0) + count p (l1 ++ l2))%nat.
Proof. rewrite !count_app. simpl. lia. Qed.

Ltac run_step :=
  first
    [ match goal with |- context [op_kernel ?t] => is_var t; destruct (op_kernel t) as [?|] eqn:? end
    | match goal with |- context [SetupKernel ?e] => destruct (SetupKernel e) as [? [?|]] eqn:? end
    | match goal with |- context [ok ?s] => is_var s; destruct (ok s) eqn:? end
    | match goal with |- context [existsb ?f (input_is_ref ?e)] =>
        destruct (existsb f (input_is_ref e)) eqn:? end
    | match goal with |- context [ok (SetAllocAttrForNode ?e)] =>
        destruct (ok (SetAllocAttrForNode e)) eqn:? end
    | match goal with |- context [is_dead ?e] => destruct (is_dead e) eqn:? end
    | match goal with |- context [IsTransferNode ?e] => destruct (IsTransferNode e) eqn:? end
    | match goal with |- context [ok (PrepareInputs ?e)] =>
        destruct (ok (PrepareInputs e)) eqn:? end
    | match goal with |- context [AsAsync ?k] => destruct (AsAsync k) eqn:? end
    | match goal with |- context [bool_decide (kernel_status ?e = RESOURCE_EXHAUSTED)] =>
        destruct (bool_decide (kernel_status e = RESOURCE_EXHAUSTED)) eqn:? end
    | match goal with |- context [NDEBUG ?e] => destruct (NDEBUG e) eqn:? end
    | match goal with |- context [has_ref_input ?t] => is_var t; destruct (has_ref_input t) eqn:? end
    | match goal with |- context [memFailure ?c] => destruct (memFailure c) eqn:? end
    | match goal with |- context [ProcessOutputs ?e ?s] =>
        destruct (ProcessOutputs e s) as [? ?] eqn:? end
    | match goal with |- context [device_record_tensor_access (ditem ?t)] =>
        destruct (device_record_tensor_access (ditem t)) eqn:? end
    | match goal with |- context [bool_decide (accessed_tensors ?e <> [])] =>
        destruct (bool_decide (accessed_tensors e <> [])) eqn:? end
    | match goal with |- context [NodeDone ?e ?s] => destruct (NodeDone e s) eqn:? end
    ].

Lemma accessed_none : bool_decide (@nil Z <> []) = false.
Proof. reflexivity. Qed.

Ltac run_red :=
  unfold run, postprocess, computeAsync, asyncDone, finish, maybeMemoryFailure, assert;
  cbv beta iota zeta delta [bind modify get emit lift ret crash];
  cbn [value state_after result trace fst snd app
       set_failureTimes set_cachedUsage set_rctx set_ditem set_op_kernel
       set_kernel_is_async set_has_ref_input set_outputs set_completed
       supportedTypes maxFailures failureTimes cachedUsage rctx ditem op_kernel
       kernel_is_async has_ref_input outputs completed
       item_device device_record_tensor_access negb andb orb];
  rewrite ?ok_OK, ?accessed_none.

Ltac run_paths := run_red; repeat (run_step; run_red; run_red).

Ltac trace_red :=
  cbn [count existsb all_beforeb some_beforeb strictly_beforeb
       is_done is_launched is_notify is_memFailure is_propagate is_compute
       is_compute_async is_node_done_ok negb andb orb Nat.add fst snd
       result trace value state_after failureTimes set_failureTimes
       set_completed set_outputs set_has_ref_input set_kernel_is_async set_op_kernel] in *.

Ltac trace_norm :=
  unfold strictly_beforeb; trace_red;
  repeat match goal with H : ok ?s = _ |- context [ok ?s] => rewrite H end;
  repeat first
    [ rewrite count_insert
    | rewrite existsb_insert by reflexivity
    | rewrite all_beforeb_insert by reflexivity
    | rewrite some_beforeb_insert by reflexivity ];
  rewrite ?take_drop; trace_red;
  repeat match goal with H : ok ?s = _ |- context [ok ?s] => rewrite H end;
  trace_red.

(** Scenario S2, first run: the kernel runs out of memory, [memFailure] is
    supplied. *)
Example run_S2 :
  trace (run (cycle add_kernel false false RESOURCE_EXHAUSTED 0 [false; false])
             (mkCallbacks true) prepared_on_gpu0)
    = [EvSetupKernel; EvSetAllocAttrForNode; EvPrepareInputs; EvCompute; EvMemFailure]
  /\ (failureTimes <$> state_after
        (run (cycle add_kernel false false RESOURCE_EXHAUSTED 0 [false; false])
             (mkCallbacks true) prepared_on_gpu0)) = Some 1.
Proof. split; vm_compute; reflexivity. Qed.

(** C2 (as amended).  In a cycle whose kernel was run and completed with
    [RESOURCE_EXHAUSTED], with a [memFailure] callback supplied, and for a
    node without reference-typed input (the assertion of
    [maybeMemoryFailure]; or with assertions compiled out), [run] returns
    with [failureTimes] incremented by exactly one, [memFailure] fired
    exactly once and [done] not fired. *)
Theorem oom_fires_memFailure (env : RunEnv) (cbs : Callbacks) (t : ExecTask) :
  memFailure cbs = true ->
  kernel_status env = RESOURCE_EXHAUSTED ->
  existsb is_compute (trace (run env cbs t)) = true ->
  NDEBUG env = true
    \/ (has_ref_input t = false /\ existsb (fun r => r) (input_is_ref env) = false) ->
  exists t',
    result (run env cbs t) = Ret tt t'
    /\ failureTimes t' = failureTimes t + 1
    /\ count is_memFailure (trace (run env cbs t)) = 1%nat
    /\ count is_done (trace (run env cbs t)) = 0%nat.
Proof.
  intros Hmf Hst Hrun Hassert. revert Hrun.
  run_paths; trace_norm; intros Hrun;
    try discriminate;
    try (rewrite Hst in *; discriminate);
    try congruence;
    try (destruct Hassert as [?|[? ?]]; congruence).
  all: eexists; repeat split; reflexivity.
Qed.

Lemma oom_fires_memFailure_witness :
  exists t',
    result (run (cycle add_kernel false false RESOURCE_EXHAUSTED 0 [false; false])
                (mkCallbacks true) prepared_on_gpu0) = Ret tt t'
    /\ failureTimes t' = failureTimes prepared_on_gpu0 + 1
    /\ count is_memFailure
         (trace (run (cycle add_kernel false false RESOURCE_EXHAUSTED 0 [false; false])
                     (mkCallbacks true) prepared_on_gpu0)) = 1%nat
    /\ count is_done
         (trace (run (cycle add_kernel false false RESOURCE_EXHAUSTED 0 [false; false])
                     (mkCallbacks true) prepared_on_gpu0)) = 0%nat.
Proof.
  apply (oom_fires_memFailure
           (cycle add_kernel false false RESOURCE_EXHAUSTED 0 [false; false])
           (mkCallbacks true) prepared_on_gpu0).
  - reflexivity.
  - reflexivity.
  - vm_compute. reflexivity.
  - right. split; reflexivity.
Defined.

(** C2 (counterexample to the claim as stated).  A node with a
    reference-typed input whose kernel completes with [RESOURCE_EXHAUSTED],
    [memFailure] supplied, assertions compiled in: [run] stops at
    [assert(!has_ref_input)]; the failure count is not incremented and
    [memFailure] is not fired. *)
Lemma oom_on_ref_input_aborts :
  memFailure (mkCallbacks true) = true
  /\ kernel_status (cycle add_kernel false false RESOURCE_EXHAUSTED 0 [true; false])
       = RESOURCE_EXHAUSTED
  /\ run (cycle add_kernel false false RESOURCE_EXHAUSTED 0 [true; false])
         (mkCallbacks true) prepared_on_gpu0
     = ([EvSetupKernel; EvSetAllocAttrForNode; EvPrepareInputs; EvCompute],
        Crash AssertionFailed)
  /\ count is_memFailure
       (trace (run (cycle add_kernel false false RESOURCE_EXHAUSTED 0 [true; false])
                   (mkCallbacks true) prepared_on_gpu0)) = 0%nat.
Proof. repeat split; vm_compute; reflexivity. Qed.

(** C7 (the code departs from the claim).  The kernel completes with
    [RESOURCE_EXHAUSTED] and no [memFailure] callback was supplied:
    [maybeMemoryFailure] still answers [true], so [run] returns at once.
    The failure is counted, but neither [done] nor [memFailure] fires, the
    node is not marked completed and [num_finished_ops] is not notified. *)
Theorem oom_without_memFailure_is_silent :
  trace (run (cycle add_kernel false false RESOURCE_EXHAUSTED 0 [false; false])
             (mkCallbacks false) prepared_on_gpu0)
    = [EvSetupKernel; EvSetAllocAttrForNode; EvPrepareInputs; EvCompute]
  /\ (failureTimes <$> state_after
        (run (cycle add_kernel false false RESOURCE_EXHAUSTED 0 [false; false])
             (mkCallbacks false) prepared_on_gpu0)) = Some 1
  /\ count is_done
       (trace (run (cycle add_kernel false false RESOURCE_EXHAUSTED 0 [false; false])
                   (mkCallbacks false) prepared_on_gpu0)) = 0%nat
  /\ count is_memFailure
       (trace (run (cycle add_kernel false false RESOURCE_EXHAUSTED 0 [false; false])
                   (mkCallbacks false) prepared_on_gpu0)) = 0%nat.
Proof. repeat split; vm_compute; reflexivity. Qed.

(** The same on every path: without the callback, a kernel that ran out of
    memory ends the cycle with neither callback fired. *)
Lemma silent_oom_on_every_path (env : RunEnv) (cbs : Callbacks) (t : ExecTask) :
  memFailure cbs = false ->
  kernel_status env = RESOURCE_EXHAUSTED ->
  existsb is_compute (trace (run env cbs t)) = true ->
  count is_done (trace (run env cbs t)) = 0%nat
  /\ count is_memFailure (trace (run env cbs t)) = 0%nat.
Proof.
  intros Hmf Hst Hrun. revert Hrun.
  run_paths; trace_norm; intros Hrun;
    try discriminate;
    try (rewrite Hst in *; discriminate);
    try congruence.
  all: split; reflexivity.
Qed.

(** ** Order of the effects of a cycle *)

(** C4 (as amended).  In every cycle in which [done] fires, it fires once,
    after the one [notify] of [num_finished_ops] and after every
    propagation of outputs, and outputs were propagated whenever the status
    handed to [NodeDone] is OK.  [launched] fires once in the cycle; it
    fires before [done] when the kernel is synchronous, and for an
    asynchronous kernel when [run] reaches [cbs.launched()] before the
    completion callback has done anything. *)
Theorem done_comes_last (env : RunEnv) (cbs : Callbacks) (t : ExecTask) :
  existsb is_done (trace (run env cbs t)) = true ->
  count is_done (trace (run env cbs t)) = 1%nat
  /\ count is_notify (trace (run env cbs t)) = 1%nat
  /\ count is_launched (trace (run env cbs t)) = 1%nat
  /\ strictly_before is_notify is_done (trace (run env cbs t))
  /\ all_before is_propagate is_done (trace (run env cbs t))
  /\ (existsb is_node_done_ok (trace (run env cbs t)) = true ->
      strictly_before is_propagate is_done (trace (run env cbs t)))
  /\ (existsb is_compute_async (trace (run env cbs t)) = false
        \/ launched_after env = 0%nat ->
      strictly_before is_launched is_done (trace (run env cbs t))).
Proof.
  assert (Hbool :
    existsb is_done (trace (run env cbs t)) = true ->
    count is_done (trace (run env cbs t)) = 1%nat
    /\ count is_notify (trace (run env cbs t)) = 1%nat
    /\ count is_launched (trace (run env cbs t)) = 1%nat
    /\ strictly_beforeb is_notify is_done (trace (run env cbs t)) = true
    /\ all_beforeb is_propagate is_done (trace (run env cbs t)) = true
    /\ (existsb is_node_done_ok (trace (run env cbs t)) = true ->
        strictly_beforeb is_propagate is_done (trace (run env cbs t)) = true)
    /\ (existsb is_compute_async (trace (run env cbs t)) = false
          \/ launched_after env = 0%nat ->
        strictly_beforeb is_launched is_done (trace (run env cbs t)) = true)).
  { run_paths; trace_norm; intros Hdone; try discriminate.
    all: repeat split; try reflexivity; try (intros; congruence).
    all: intros [Hs|Hla]; [discriminate|]; rewrite Hla; reflexivity. }
  intros Hdone. destruct (Hbool Hdone) as (H1 & H2 & H3 & H4 & H5 & H6 & H7).
  repeat split; auto using all_beforeb_sound;
    try (apply strictly_beforeb_sound; auto; fail);
    try (apply some_beforeb_sound, andb_true_iff in H4; tauto).
Qed.

(** Scenario S1: the synchronous kernel of [Add] succeeds. *)
Example run_S1 :
  trace (run (cycle add_kernel false false OK 0 [false; false])
             (mkCallbacks true) prepared_on_gpu0)
    = [EvSetupKernel; EvSetAllocAttrForNode; EvPrepareInputs; EvCompute;
       EvProcessOutputs; EvClearInputs 2; EvPropagateOutputs [Some 7; Some 8];
       EvMaybeMarkCompleted; EvNodeDone OK true; EvLaunched; EvNotify; EvDone].
Proof. vm_compute. reflexivity. Qed.

Lemma done_comes_last_witness :
  existsb is_done
    (trace (run (cycle add_kernel false false OK 0 [false; false])
                (mkCallbacks true) prepared_on_gpu0)) = true
  /\ strictly_before is_notify is_done
       (trace (run (cycle add_kernel false false OK 0 [false; false])
                   (mkCallbacks true) prepared_on_gpu0)).
Proof.
  assert (H : existsb is_done
                (trace (run (cycle add_kernel false false OK 0 [false; false])
                            (mkCallbacks true) prepared_on_gpu0)) = true)
    by (vm_compute; reflexivity).
  split; [exact H|].
  exact (proj1 (proj2 (proj2 (proj2
           (done_comes_last (cycle add_kernel false false OK 0 [false; false])
                            (mkCallbacks true) prepared_on_gpu0 H))))).
Defined.

(** C4 (counterexample to the claim as stated).  The asynchronous kernel of
    [_Recv] completes inside [ComputeAsync]: the completion callback runs
    to its end, [done] included, before [run] gets to [cbs.launched()].  In
    this cycle [launched] does not happen before [done]. *)
Lemma async_done_before_launched :
  trace (run (cycle recv_kernel false true OK 8 []) (mkCallbacks true) prepared_on_gpu0)
    = [EvSetupKernel; EvSetAllocAttrForNode; EvPrepareInputs; EvComputeAsync;
       EvProcessOutputs; EvClearInputs 0; EvPropagateOutputs [Some 7; Some 8];
       EvConsumeListOfAccessedTensors; EvMaybeMarkCompleted; EvNodeDone OK false;
       EvNotify; EvDone; EvLaunched]
  /\ ~ strictly_before is_launched is_done
        (trace (run (cycle recv_kernel false true OK 8 []) (mkCallbacks true)
                    prepared_on_gpu0)).
Proof.
  assert (E : trace (run (cycle recv_kernel false true OK 8 []) (mkCallbacks true)
                         prepared_on_gpu0)
              = [EvSetupKernel; EvSetAllocAttrForNode; EvPrepareInputs; EvComputeAsync;
                 EvProcessOutputs; EvClearInputs 0; EvPropagateOutputs [Some 7; Some 8];
                 EvConsumeListOfAccessedTensors; EvMaybeMarkCompleted;
                 EvNodeDone OK false; EvNotify; EvDone; EvLaunched])
    by (vm_compute; reflexivity).
  split; [exact E|]. rewrite E. intros [Hsome _].
  destruct (Hsome 11%nat EvDone eq_refl eq_refl) as (i & a & Hlt & Hi & Ha).
  do 11 (destruct i as [|i]; [cbn in Hi; injection Hi as <-; discriminate|]).
  lia.
Qed.

(** ** Dead nodes *)

(** C5 (as amended).  For a node marked dead whose kernel is at hand and
    whose allocator attributes could be set: if it is not a transfer node,
    [run] invokes no kernel, resizes the outputs to [num_outputs] empty
    entries and propagates exactly these before it fires [done]; if it is a
    transfer node and its inputs could be prepared, the kernel is invoked
    in spite of the dead bit. *)
Theorem dead_node (env : RunEnv) (cbs : Callbacks) (t : ExecTask) :
  is_dead env = true ->
  kernel_ready env t ->
  ok (SetAllocAttrForNode env) = true ->
  (IsTransferNode env = false ->
     existsb is_compute (trace (run env cbs t)) = false
     /\ EvPropagateOutputs (replicate (num_outputs env) None) ∈ trace (run env cbs t)
     /\ count is_propagate (trace (run env cbs t)) = 1%nat
     /\ strictly_before is_propagate is_done (trace (run env cbs t))
     /\ count is_done (trace (run env cbs t)) = 1%nat)
  /\ (IsTransferNode env = true -> ok (PrepareInputs env) = true ->
     existsb is_compute (trace (run env cbs t)) = true).
Proof.
  intros Hdead Hready Hattr.
  assert (Hbool :
    (IsTransferNode env = false ->
       existsb is_compute (trace (run env cbs t)) = false
       /\ EvPropagateOutputs (replicate (num_outputs env) None) ∈ trace (run env cbs t)
       /\ count is_propagate (trace (run env cbs t)) = 1%nat
       /\ strictly_beforeb is_propagate is_done (trace (run env cbs t)) = true
       /\ count is_done (trace (run env cbs t)) = 1%nat)
    /\ (IsTransferNode env = true -> ok (PrepareInputs env) = true ->
       existsb is_compute (trace (run env cbs t)) = true)).
  { unfold kernel_ready in Hready. revert Hready.
    run_paths; trace_norm; intros Hready;
      try congruence;
      try (destruct Hready as [[? ?]|[? [? ?]]]; cbn in *; congruence).
    all: split; [intros Htr; try discriminate
                | intros Htr Hpi; try discriminate; try reflexivity].
    all: repeat split; try reflexivity; rewrite !elem_of_cons; auto 10. }
  destruct Hbool as [Hdeadpath Htransfer]. split; [|exact Htransfer].
  intros Htr. destruct (Hdeadpath Htr) as (H1 & H2 & H3 & H4 & H5).
  repeat split; auto; by apply strictly_beforeb_sound.
Qed.

(** Scenario S5: node [Add] marked dead. *)
Example run_S5 :
  trace (run (cycle add_kernel true false OK 0 [false; false])
             (mkCallbacks true) prepared_on_gpu0)
    = [EvSetupKernel; EvSetAllocAttrForNode; EvClearInputs 2;
       EvPropagateOutputs [None; None]; EvMaybeMarkCompleted; EvNodeDone OK true;
       EvLaunched; EvNotify; EvDone].
Proof. vm_compute. reflexivity. Qed.

(** Scenario S4: node [_Recv] marked dead; its kernel is invoked. *)
Example run_S4 :
  trace (run (cycle recv_kernel true true OK 0 []) (mkCallbacks true) prepared_on_gpu0)
    = [EvSetupKernel; EvSetAllocAttrForNode; EvPrepareInputs; EvComputeAsync;
       EvLaunched; EvProcessOutputs; EvClearInputs 0;
       EvPropagateOutputs [Some 7; Some 8]; EvConsumeListOfAccessedTensors;
       EvMaybeMarkCompleted; EvNodeDone OK false; EvNotify; EvDone].
Proof. vm_compute. reflexivity. Qed.

Lemma dead_node_witness :
  is_dead (cycle add_kernel true false OK 0 [false; false]) = true
  /\ kernel_ready (cycle add_kernel true false OK 0 [false; false]) prepared_on_gpu0
  /\ ok (SetAllocAttrForNode (cycle add_kernel true false OK 0 [false; false])) = true
  /\ EvPropagateOutputs [None; None]
       ∈ trace (run (cycle add_kernel true false OK 0 [false; false])
                    (mkCallbacks true) prepared_on_gpu0).
Proof.
  assert (H1 : is_dead (cycle add_kernel true false OK 0 [false; false]) = true)
    by reflexivity.
  assert (H2 : kernel_ready (cycle add_kernel true false OK 0 [false; false])
                            prepared_on_gpu0).
  { right. split; [reflexivity|]. simpl. exists add_kernel. reflexivity. }
  assert (H3 : ok (SetAllocAttrForNode (cycle add_kernel true false OK 0 [false; false]))
               = true) by reflexivity.
  split; [exact H1|]. split; [exact H2|]. split; [exact H3|].
  exact (proj1 (proj2 (proj1
           (dead_node (cycle add_kernel true false OK 0 [false; false])
                      (mkCallbacks true) prepared_on_gpu0 H1 H2 H3) eq_refl))).
Defined.

(** C5 (counterexample to the claim as stated).  The node is dead and not a
    transfer node, but [SetupKernel] fails: [run] goes straight to
    [finish]; the outputs are neither resized nor propagated. *)
Lemma dead_add_without_kernel :
  is_dead env_no_kernel = true
  /\ IsTransferNode env_no_kernel = false
  /\ trace (run env_no_kernel (mkCallbacks true) prepared_on_gpu0)
     = [EvSetupKernel; EvErr (CreateKernelFailed NOT_FOUND); EvMaybeMarkCompleted;
        EvNodeDone NOT_FOUND true; EvLaunched; EvNotify; EvDone]
  /\ count is_propagate
       (trace (run env_no_kernel (mkCallbacks true) prepared_on_gpu0)) = 0%nat.
Proof. repeat split; vm_compute; reflexivity. Qed.

(** * Further properties *)

(** ** More on [estimatedUsage] *)

(** Full reduction of the monad's plumbing, also under a test that is not
    decided yet. *)
Ltac mcbv :=
  cbv beta iota zeta delta [bind modify get emit lift ret crash defined int_val];
  cbn [value state_after result trace fst snd app
       set_failureTimes set_cachedUsage set_rctx set_ditem set_op_kernel
       set_kernel_is_async set_has_ref_input set_outputs set_completed
       supportedTypes maxFailures failureTimes cachedUsage rctx ditem op_kernel
       kernel_is_async has_ref_input outputs completed
       item_device device_record_tensor_access].

Lemma estimate_from_session_cases (env : EstimateEnv) (dev : DeviceSpec)
    (t : ExecTask) (tr : list Event) (t1 : ExecTask) :
  estimate_from_session env dev t = (tr, Ret tt t1) ->
  t1 = t \/ exists r, t1 = set_cachedUsage (<[dev := r]> (cachedUsage t)) t.
Proof.
  unfold estimate_from_session. mcbv.
  destruct (0 <? failureTimes t); mcbv; [|intros [= <- <-]; by left].
  destruct (session_usage env) as [rm|]; mcbv; [|intros [= <- <-]; by left].
  destruct (maxFailures t <? failureTimes t); mcbv;
    (destruct (in_int (maxFailures t + 1)); mcbv; [|discriminate]);
    match goal with |- context [in_int ?z] => destruct (in_int z) end; mcbv;
      try discriminate;
    match goal with |- context [int_shl1 ?z] => destruct (int_shl1 z) end; mcbv;
      try discriminate;
    intros [= <- <-]; right; eauto.
Qed.

Lemma estimate_from_shapes_state (env : EstimateEnv) (dev : DeviceSpec) (t : ExecTask) :
  exists tr r,
    estimate_from_shapes env dev t
      = (tr, Ret r (set_cachedUsage (<[dev := r]> (cachedUsage t)) t)).
Proof.
  destruct (shapeForNode env) as [outs|] eqn:Hs.
  - destruct (estimate_from_shapes_value env dev t outs Hs) as (pre & b & mts & H).
    rewrite H. eauto.
  - unfold estimate_from_shapes. rewrite Hs. mred. eauto.
Qed.

Lemma estimatedUsage_effect (env : EstimateEnv) (dev : DeviceSpec)
    (t : ExecTask) (r : Resources) (t' : ExecTask) :
  result (estimatedUsage env dev t) = Ret r t' ->
  cachedUsage t' !! dev = Some r
  /\ (forall dev', dev' <> dev -> cachedUsage t' !! dev' = cachedUsage t !! dev')
  /\ t' = set_cachedUsage (cachedUsage t') t.
Proof.
  unfold estimatedUsage, bind at 1.
  destruct (estimate_from_session env dev t) as [tr0 [[] t1|f]] eqn:H0;
    [|unfold result; cbn [snd]; discriminate].
  assert (Hframe : forall (c : gmap DeviceSpec Resources) (s : ExecTask),
            set_cachedUsage c (set_cachedUsage (cachedUsage s) s)
            = set_cachedUsage c s) by reflexivity.
  destruct (estimate_from_session_cases env dev t tr0 t1 H0) as [->|[r0 ->]].
  - unfold bind, get. cbn [fst snd].
    destruct (cachedUsage t !! dev) as [rc|] eqn:Hc.
    + unfold ret, result. cbn [snd]. intros [= <- <-].
      split; [done|]. split; [done|]. by destruct t.
    + destruct (estimate_from_shapes_state env dev t) as (tr & rs & ->).
      unfold result. cbn [snd]. intros [= <- <-]. cbn [cachedUsage set_cachedUsage].
      split; [apply lookup_insert_eq|]. split; [|reflexivity].
      intros dev' Hne. by rewrite lookup_insert_ne.
  - unfold bind, get. cbn [fst snd cachedUsage set_cachedUsage].
    rewrite lookup_insert_eq. unfold ret, result. cbn [snd]. intros [= <- <-].
    cbn [cachedUsage set_cachedUsage].
    split; [apply lookup_insert_eq|]. split; [|reflexivity].
    intros dev' Hne. by rewrite lookup_insert_ne.
Qed.

(** X1.  Whatever path it takes, an [estimatedUsage] that returns has left
    its answer in [cachedUsage[dev]], has changed no entry of another
    device, and no other field of the task. *)
Theorem estimatedUsage_touches_only_its_entry (env : EstimateEnv) (dev : DeviceSpec)
    (t : ExecTask) (r : Resources) (t' : ExecTask) :
  result (estimatedUsage env dev t) = Ret r t' ->
  cachedUsage t' !! dev = Some r
  /\ (forall dev', dev' <> dev -> cachedUsage t' !! dev' = cachedUsage t !! dev')
  /\ t' = set_cachedUsage (cachedUsage t') t.
Proof. apply estimatedUsage_effect. Qed.

Lemma estimatedUsage_touches_only_its_entry_witness :
  exists r t',
    result (estimatedUsage env_S1 cpu0 (fresh_task 4 0)) = Ret r t'
    /\ cachedUsage t' !! cpu0 = Some r
    /\ cachedUsage t' !! gpu0 = None.
Proof.
  pose proof (estimatedUsage_touches_only_its_entry env_S1 cpu0 (fresh_task 4 0) _ _ eq_refl)
    as (H1 & H2 & _).
  eexists _, _. split; [reflexivity|]. split; [exact H1|].
  exact (H2 gpu0 ltac:(discriminate)).
Defined.

(** X2.  Without shape information the first estimate of a task that has not
    failed is the empty map, a warning is logged, and the empty map is
    cached: every later call answers the empty map from the cache, also
    when shape information has become available by then. *)
Theorem missing_shapes_stick (env1 env2 : EstimateEnv) (dev : DeviceSpec) (t : ExecTask) :
  failureTimes t = 0 ->
  cachedUsage t !! dev = None ->
  shapeForNode env1 = None ->
  exists t1,
    estimatedUsage env1 dev t
      = ([EvShapeForNode; EvWarn ShapeNotAvailable], Ret ∅ t1)
    /\ estimatedUsage env2 dev t1 = ([], Ret ∅ t1).
Proof.
  intros Hk Hc Hs.
  exists (set_cachedUsage (<[dev := ∅]> (cachedUsage t)) t).
  assert (E : estimatedUsage env1 dev t
              = ([EvShapeForNode; EvWarn ShapeNotAvailable],
                 Ret ∅ (set_cachedUsage (<[dev := ∅]> (cachedUsage t)) t))).
  { unfold estimatedUsage, estimate_from_session. mcbv. rewrite Hk.
    change (0 <? 0) with false. mcbv.
    rewrite Hc. unfold estimate_from_shapes. rewrite Hs. mcbv. reflexivity. }
  split; [exact E|].
  apply estimatedUsage_cached; cbn [failureTimes cachedUsage set_cachedUsage]; [lia|].
  apply lookup_insert_eq.
Qed.

Lemma missing_shapes_stick_witness :
  exists t1,
    estimatedUsage env_no_shapes cpu0 (fresh_task 4 0)
      = ([EvShapeForNode; EvWarn ShapeNotAvailable], Ret ∅ t1)
    /\ estimatedUsage env_S1 cpu0 t1 = ([], Ret ∅ t1).
Proof.
  exact (missing_shapes_stick env_no_shapes env_S1 cpu0 (fresh_task 4 0)
           eq_refl eq_refl eq_refl).
Defined.

Lemma scale_scale (m : Resources) (a b : Qc) :
  scale (scale m a) b = scale m (a * b)%Qc.
Proof.
  unfold scale. rewrite <- map_fmap_compose. apply map_fmap_ext.
  intros i x _. simpl. ring.
Qed.

(** X3.  Below the retry limit every further failure doubles the empirical
    estimate: with the same session usage, the estimate after [k + 1]
    failures is point-wise twice the estimate after [k] failures
    ([0 < k < maxFailures <= 30]). *)
Theorem estimate_doubles_with_each_failure (env : EstimateEnv) (dev : DeviceSpec)
    (t : ExecTask) (rm : ResourceMap) :
  session_usage env = Some rm ->
  0 < failureTimes t < maxFailures t ->
  maxFailures t <= 30 ->
  exists r,
    value (estimatedUsage env dev t) = Some r
    /\ value (estimatedUsage env dev (set_failureTimes (failureTimes t + 1) t))
       = Some (scale r (to_double 2)).
Proof.
  intros Hrm Hk HM.
  set (t2 := set_failureTimes (failureTimes t + 1) t).
  assert (He : exponent t = exponent t2 + 1).
  { unfold exponent, clamped, t2. cbn [failureTimes maxFailures set_failureTimes]. lia. }
  assert (He2 : 1 <= exponent t2).
  { unfold exponent, clamped, t2. cbn [failureTimes maxFailures set_failureTimes]. lia. }
  assert (He3 : exponent t < 31) by (unfold exponent, clamped; lia).
  destruct (estimatedUsage_empirical env dev t rm) as [H1 _];
    [lia | done | unfold INT_MIN, INT_MAX; lia | lia |].
  destruct (estimatedUsage_empirical env dev t2 rm) as [H2 _];
    [unfold t2; cbn [failureTimes set_failureTimes]; lia | done
    | unfold t2, INT_MIN, INT_MAX; cbn [maxFailures set_failureTimes]; lia | lia |].
  eexists. split; [exact H1|]. rewrite H2. f_equal.
  rewrite scale_scale. f_equal. rewrite He.
  rewrite Z.pow_add_r, Z.pow_1_r by lia.
  assert (Hp : 0 < 2 ^ exponent t2 <= 2 ^ 30)
    by (split; [apply Z.pow_pos_nonneg | apply Z.pow_le_mono_r]; lia).
  rewrite !to_double_exact by lia. rewrite exact_mult.
  assert (exact (2 ^ exponent t2) <> 0%Qc) by (apply exact_pos; lia).
  assert (exact 2 <> 0%Qc) by (apply exact_pos; lia).
  field. split; assumption.
Qed.

Lemma estimate_doubles_with_each_failure_witness :
  exists r,
    value (estimatedUsage env_S2 gpu0 (fresh_task 4 1)) = Some r
    /\ value (estimatedUsage env_S2 gpu0 (set_failureTimes (1 + 1) (fresh_task 4 1)))
       = Some (scale r (to_double 2)).
Proof.
  apply (estimate_doubles_with_each_failure env_S2 gpu0 (fresh_task 4 1) session_S2).
  - reflexivity.
  - simpl. lia.
  - simpl. lia.
Defined.

(** X4.  At the retry limit and beyond, the empirical estimate is half the
    merged session usage, however often the task has failed; a count beyond
    the limit is reported by a warning. *)
Theorem estimate_at_limit_is_half (env : EstimateEnv) (dev : DeviceSpec)
    (t : ExecTask) (rm : ResourceMap) :
  session_usage env = Some rm ->
  0 < failureTimes t ->
  INT_MIN <= maxFailures t < INT_MAX ->
  maxFailures t <= failureTimes t ->
  value (estimatedUsage env dev t)
    = Some (scale (merge (temporary rm) (persistant rm)) (1 / to_double 2)%Qc)
  /\ (maxFailures t < failureTimes t ->
      EvWarn (FailureTimeExceeds (failureTimes t) (maxFailures t))
        ∈ trace (estimatedUsage env dev t)).
Proof.
  intros Hrm Hk HM Hlim.
  assert (He : exponent t = 1) by (unfold exponent, clamped; lia).
  destruct (estimatedUsage_empirical env dev t rm) as [H1 _]; [done..|lia|].
  rewrite He in H1. split; [exact H1|].
  intros Hgt.
  unfold estimatedUsage. 
  destruct (trace_bind (estimate_from_session env dev)
              (fun _ => t0 <- get;;
                 match cachedUsage t0 !! dev with
                 | Some r => ret r
                 | None => estimate_from_shapes env dev
                 end) t) as [tr1 ->].
  apply elem_of_app. left.
  unfold estimate_from_session. mcbv.
  replace (0 <? failureTimes t) with true by (symmetry; apply Z.ltb_lt; lia).
  rewrite Hrm.
  replace (maxFailures t <? failureTimes t) with true by (symmetry; apply Z.ltb_lt; lia).
  mcbv.
  repeat match goal with
         | |- context [if ?b then _ else _] => destruct b; mcbv
         | |- context [match ?o with Some _ => _ | None => _ end] => destruct o; mcbv
         end;
    rewrite !elem_of_cons; auto.
Qed.

Lemma estimate_at_limit_is_half_witness :
  value (estimatedUsage env_S2 gpu0 (fresh_task 4 9))
    = Some (scale (merge (temporary session_S2) (persistant session_S2))
                  (1 / to_double 2)%Qc).
Proof.
  apply (estimate_at_limit_is_half env_S2 gpu0 (fresh_task 4 9) session_S2).
  - reflexivity.
  - simpl. lia.
  - unfold INT_MIN, INT_MAX. simpl. lia.
  - simpl. lia.
Defined.

(** X5.  The empirical estimate does not depend on the device it is asked
    for: it carries exactly the tags of the session's temporary and
    persistent usage, those of other devices included. *)
Theorem empirical_estimate_ignores_device (env : EstimateEnv) (dev dev' : DeviceSpec)
    (t : ExecTask) (rm : ResourceMap) :
  0 < failureTimes t ->
  session_usage env = Some rm ->
  INT_MIN <= maxFailures t < INT_MAX ->
  exponent t < 31 ->
  exists r,
    value (estimatedUsage env dev t) = Some r
    /\ value (estimatedUsage env dev' t) = Some r
    /\ dom r = dom (temporary rm) ∪ dom (persistant rm).
Proof.
  intros Hk Hrm HM He.
  destruct (estimatedUsage_empirical env dev t rm Hk Hrm HM He) as [H1 _].
  destruct (estimatedUsage_empirical env dev' t rm Hk Hrm HM He) as [H2 _].
  eexists. split; [exact H1|]. split; [exact H2|].
  unfold scale, merge. rewrite dom_fmap_L.
  apply set_eq. intros tag.
  rewrite elem_of_union, !elem_of_dom, lookup_union_with.
  destruct (temporary rm !! tag), (persistant rm !! tag); simpl;
    unfold is_Some;
    (split; [intros [x Hx] | intros [[x Hx]|[x Hx]]]); try discriminate; eauto.
Qed.

Lemma empirical_estimate_ignores_device_witness :
  exists r,
    value (estimatedUsage env_S2 gpu0 (fresh_task 4 1)) = Some r
    /\ value (estimatedUsage env_S2 cpu0 (fresh_task 4 1)) = Some r
    /\ dom r = dom (temporary session_S2) ∪ dom (persistant session_S2).
Proof.
  apply (empirical_estimate_ignores_device env_S2 gpu0 cpu0 (fresh_task 4 1) session_S2).
  - simpl. lia.
  - reflexivity.
  - unfold INT_MIN, INT_MAX. simpl. lia.
  - vm_compute. reflexivity.
Defined.

(** X6.  A task that has failed but whose session is unknown to the tracker
    keeps its estimate: the error is logged and the cached map is returned
    unchanged. *)
Theorem unknown_session_keeps_estimate (env : EstimateEnv) (dev : DeviceSpec)
    (t : ExecTask) (r : Resources) :
  0 < failureTimes t ->
  session_usage env = None ->
  cachedUsage t !! dev = Some r ->
  estimatedUsage env dev t = ([EvSessionUsage; EvErr NoSessionUsage], Ret r t).
Proof.
  intros Hk Hs Hc. unfold estimatedUsage, estimate_from_session. mcbv.
  replace (0 <? failureTimes t) with true by (symmetry; apply Z.ltb_lt; lia).
  rewrite Hs. mcbv. rewrite Hc. reflexivity.
Qed.

Lemma unknown_session_keeps_estimate_witness :
  estimatedUsage env_S1 cpu0 failed_with_cache
    = ([EvSessionUsage; EvErr NoSessionUsage],
       Ret {[ mem cpu0 := to_double 24 ]} failed_with_cache).
Proof.
  apply (unknown_session_keeps_estimate env_S1 cpu0 failed_with_cache).
  - simpl. lia.
  - reflexivity.
  - reflexivity.
Defined.

(** X7.  What the device manager and the memory-type registry answer has no
    influence on the estimate of the shape path: two environments with the
    same shape information give the same map, whether the device is found
    or not and whatever memory types are reported. *)
Theorem shape_estimate_ignores_memory_types (env env' : EstimateEnv) (dev : DeviceSpec)
    (t : ExecTask) :
  failureTimes t <= 0 ->
  cachedUsage t !! dev = None ->
  shapeForNode env = shapeForNode env' ->
  value (estimatedUsage env dev t) = value (estimatedUsage env' dev t).
Proof.
  intros Hk Hc Hs.
  destruct (estimate_from_session_skipped env dev t (or_introl Hk)) as [tr0 H0].
  destruct (estimate_from_session_skipped env' dev t (or_introl Hk)) as [tr0' H0'].
  unfold estimatedUsage, bind at 1 3. rewrite H0, H0'.
  unfold bind, get. cbn [fst snd]. rewrite Hc.
  destruct (shapeForNode env') as [outs|] eqn:Hs'.
  - destruct (estimate_from_shapes_value env dev t outs Hs) as (? & ? & ? & ->).
    destruct (estimate_from_shapes_value env' dev t outs Hs') as (? & ? & ? & ->).
    reflexivity.
  - unfold estimate_from_shapes. rewrite Hs, Hs'. mcbv. reflexivity.
Qed.

Lemma shape_estimate_ignores_memory_types_witness :
  value (estimatedUsage env_host gpu0 (fresh_task 4 0))
    = value (estimatedUsage env_host_no_device gpu0 (fresh_task 4 0)).
Proof.
  apply (shape_estimate_ignores_memory_types env_host env_host_no_device gpu0
           (fresh_task 4 0)).
  - simpl. lia.
  - reflexivity.
  - reflexivity.
Defined.

Lemma contributions_nonneg (outs : list OutputInfo) :
  Forall (fun c => (0 <= c)%Qc) (contributions outs).
Proof.
  unfold contributions. induction outs as [|o outs IH]; simpl; [constructor|].
  unfold contribution at 1. destruct (shape o) as [dims|]; simpl; [|exact IH].
  constructor; [|exact IH].
  apply to_double_nonneg.
  exact (proj1 (Z.mod_pos_bound (known_product dims * dtype_size o) (2 ^ 64) eq_refl)).
Qed.

Lemma total_nonneg (cs : list Qc) :
  Forall (fun c => (0 <= c)%Qc) cs -> (0 <= total cs)%Qc.
Proof.
  induction 1 as [|c cs Hc _ IH]; simpl; [apply Qcle_refl|].
  replace 0%Qc with (0 + 0)%Qc by ring. by apply Qcplus_le_compat.
Qed.

(** X8.  The shape path never estimates a negative amount, whatever
    dimensions and element sizes the collaborators report: the entry under
    [(MEMORY, dev)], when there is one, is at least 0. *)
Theorem shape_estimate_nonnegative (env : EstimateEnv) (dev : DeviceSpec)
    (t : ExecTask) (r : Resources) (tag : ResourceTag) (q : Qc) :
  failureTimes t <= 0 ->
  cachedUsage t !! dev = None ->
  value (estimatedUsage env dev t) = Some r ->
  r !! tag = Some q ->
  tag = mkResourceTag MEMORY dev /\ (0 <= q)%Qc.
Proof.
  intros Hk Hc.
  destruct (estimate_from_session_skipped env dev t (or_introl Hk)) as [tr0 H0].
  unfold estimatedUsage, bind at 1. rewrite H0.
  unfold bind, get. cbn [fst snd]. rewrite Hc.
  destruct (shapeForNode env) as [outs|] eqn:Hs.
  - destruct (estimate_from_shapes_value env dev t outs Hs) as (? & ? & ? & ->).
    unfold value. cbn [snd]. intros [= <-]. unfold shape_estimate.
    pose proof (contributions_nonneg outs) as Hnn.
    destruct (contributions outs) as [|c cs]; [by rewrite lookup_empty|].
    intros [<- <-]%lookup_singleton_Some. split; [done|]. by apply total_nonneg.
  - unfold estimate_from_shapes. rewrite Hs. mcbv. intros [= <-].
    by rewrite lookup_empty.
Qed.

Lemma shape_estimate_nonnegative_witness :
  exists r q,
    value (estimatedUsage env_negative_dim gpu0 (fresh_task 4 0)) = Some r
    /\ r !! mem gpu0 = Some q
    /\ (0 <= q)%Qc.
Proof.
  eexists _, _.
  assert (Hv : value (estimatedUsage env_negative_dim gpu0 (fresh_task 4 0))
               = Some {[ mem gpu0 := to_double (2 ^ 64 - 24) ]}) by compute_done.
  assert (Hl : ({[ mem gpu0 := to_double (2 ^ 64 - 24) ]} : Resources) !! mem gpu0
               = Some (to_double (2 ^ 64 - 24))) by apply lookup_singleton_eq.
  split; [exact Hv|]. split; [exact Hl|].
  exact (proj2 (shape_estimate_nonnegative env_negative_dim gpu0 (fresh_task 4 0)
                  _ (mem gpu0) _ ltac:(simpl; lia) eq_refl Hv Hl)).
Defined.

(** ** More on [prepare] *)

Ltac prep_red :=
  cbv beta iota zeta delta [bind modify get emit lift ret crash];
  cbn [value state_after result trace fst snd app
       set_failureTimes set_cachedUsage set_rctx set_ditem set_op_kernel
       set_kernel_is_async set_has_ref_input set_outputs set_completed
       supportedTypes maxFailures failureTimes cachedUsage rctx ditem op_kernel
       kernel_is_async has_ref_input outputs completed
       item_device device_record_tensor_access negb].

(** X9.  [prepare] refuses for no other reason than the three it tests:
    when it returns [false], the device type is unsupported, or the device
    is not found, or the kernel cache holds a kernel of the node whose
    device is forgotten or differs from the device looked up. *)
Theorem prepare_rejects_only_for (env : PrepareEnv) (ctx : ResourceContext)
    (t : ExecTask) :
  value (prepare env ctx t) = Some false ->
  unsupported t ctx
  \/ lookup_fails env ctx
  \/ exists fk devName k,
       find_kernel env = (fk, devName, Some k) /\ ok fk = true
       /\ (devName = ""
           \/ devName <> name (prep_deviceMgr env (device_name (spec ctx))).2).
Proof.
  unfold unsupported, lookup_fails. rewrite <- none_of_spec.
  unfold prepare, LookupDevice. prep_red.
  destruct (forallb _ (supportedTypes t)); prep_red; [by left|].
  destruct (prep_deviceMgr env (device_name (spec ctx))) as [s d]. cbn [fst snd].
  destruct (ok s) eqn:Hok; prep_red; rewrite ?ok_OK; prep_red; [|by right; left].
  unfold assert.
  destruct (prep_NDEBUG env || bool_decide (resMon ctx <> None)); prep_red;
    [|discriminate].
  destruct (find_kernel env) as [[fk devName] k]. prep_red.
  destruct (ok fk) eqn:Hfk; cbn [andb negb]; prep_red; [|discriminate].
  destruct k as [k|]; [|rewrite bool_decide_eq_false_2 by (intros H; by apply H);
                        prep_red; discriminate].
  rewrite (bool_decide_eq_true_2 (Some k <> None)) by done. prep_red.
  destruct (bool_decide (devName = "")) eqn:He; prep_red.
  { intros _. right. right. exists fk, devName, k.
    apply bool_decide_eq_true in He. auto. }
  destruct (bool_decide (devName = name d)) eqn:Hn; prep_red; [discriminate|].
  intros _. right. right. exists fk, devName, k.
  apply bool_decide_eq_false in Hn. auto.
Qed.

Lemma prepare_rejects_only_for_witness :
  unsupported (fresh_task 4 0) ctx_gpu0
  \/ lookup_fails env_S3 ctx_gpu0
  \/ exists fk devName k,
       find_kernel env_S3 = (fk, devName, Some k) /\ ok fk = true
       /\ (devName = ""
           \/ devName <> name (prep_deviceMgr env_S3 (device_name (spec ctx_gpu0))).2).
Proof.
  apply (prepare_rejects_only_for env_S3 ctx_gpu0 (fresh_task 4 0)).
  vm_compute. reflexivity.
Defined.

(** X10.  A failing query of the kernel cache is no reason to refuse: for a
    supported device that is found, [prepare] logs the error and returns
    [true], bound to the device and to the context. *)
Theorem prepare_tolerates_find_kernel_failure (env : PrepareEnv) (ctx : ResourceContext)
    (t : ExecTask) (fk : Status) (devName : string) (k : option OpKernel) (d : TFDevice) :
  ~ unsupported t ctx ->
  prep_deviceMgr env (device_name (spec ctx)) = (OK, d) ->
  prep_NDEBUG env = true \/ resMon ctx <> None ->
  find_kernel env = (fk, devName, k) ->
  ok fk = false ->
  prepare env ctx t
    = ([EvLookupDevice (device_name (spec ctx)); EvSetResourceContext ctx;
        EvFindKernel; EvErr (FindKernelFailed fk)],
       Ret true (set_op_kernel k
                  (set_ditem (mkDeviceItem (Some d) (RequiresRecordingAccessedTensors d))
                     (set_rctx ctx t)))).
Proof.
  intros Hsup Hd Hmon Hfind Hfk.
  unfold unsupported in Hsup. rewrite <- none_of_spec in Hsup.
  apply not_true_is_false in Hsup.
  unfold prepare, LookupDevice. prep_red. rewrite Hsup, Hd. prep_red.
  rewrite !ok_OK. prep_red. unfold assert.
  assert (Ha : prep_NDEBUG env || bool_decide (resMon ctx <> None) = true).
  { destruct Hmon as [->|Hm]; [done|]. rewrite bool_decide_eq_true_2 by done.
    by rewrite orb_true_r. }
  rewrite Ha, Hfind. prep_red. rewrite Hfk. cbn [andb negb]. prep_red.
  reflexivity.
Qed.

Lemma prepare_tolerates_find_kernel_failure_witness :
  value (prepare env_cache_down ctx_gpu0 (fresh_task 4 0)) = Some true.
Proof.
  rewrite (prepare_tolerates_find_kernel_failure env_cache_down ctx_gpu0 (fresh_task 4 0)
             INTERNAL "" None (mkTFDevice "/device:GPU:0" "GPU" true)).
  - reflexivity.
  - unfold unsupported. simpl. intros H. apply H. apply elem_of_cons. by left.
  - vm_compute. reflexivity.
  - right. simpl. discriminate.
  - reflexivity.
  - reflexivity.
Defined.

(** X11.  A [prepare] that refuses because of the device (type unsupported,
    or device not found) has replaced the resource context and nothing
    else: device item and kernel of the earlier [prepare] stay in the
    task, next to the context that was refused. *)
Theorem early_rejection_keeps_binding (env : PrepareEnv) (ctx : ResourceContext)
    (t : ExecTask) :
  unsupported t ctx \/ lookup_fails env ctx ->
  result (prepare env ctx t) = Ret false (set_rctx ctx t).
Proof.
  unfold unsupported, lookup_fails. rewrite <- none_of_spec.
  intros Hwhy. unfold prepare, LookupDevice. prep_red.
  destruct (forallb _ (supportedTypes t)); prep_red; [reflexivity|].
  destruct Hwhy as [?|Hl]; [done|].
  destruct (prep_deviceMgr env (device_name (spec ctx))) as [s d]. cbn [fst snd] in *.
  rewrite Hl. prep_red. rewrite Hl. prep_red. by destruct t.
Qed.

Lemma early_rejection_keeps_binding_witness :
  result (prepare env_S3 ctx_gpu7 prepared_on_cpu0) = Ret false (set_rctx ctx_gpu7 prepared_on_cpu0)
  /\ op_kernel (set_rctx ctx_gpu7 prepared_on_cpu0) = Some variable_kernel.
Proof.
  split; [|reflexivity].
  apply (early_rejection_keeps_binding env_S3 ctx_gpu7 prepared_on_cpu0).
  right. vm_compute. reflexivity.
Defined.

(** ** More on [run] *)

Ltac trace_red2 :=
  cbn [count existsb all_beforeb some_beforeb strictly_beforeb
       is_done is_launched is_notify is_memFailure is_propagate is_compute
       is_compute_async is_node_done_ok is_setup is_node_done is_mark_completed
       is_inline_node_done is_executor_finish is_sync_compute is_completion
       negb andb orb Nat.add fst snd
       result trace value state_after failureTimes set_failureTimes
       set_completed set_outputs set_has_ref_input set_kernel_is_async set_op_kernel] in *.

Ltac trace_norm2 :=
  trace_red2;
  repeat match goal with H : ok ?s = _ |- context [ok ?s] => rewrite H end;
  repeat first
    [ rewrite count_insert
    | rewrite existsb_insert by reflexivity ];
  rewrite ?take_drop; trace_red2;
  repeat match goal with H : ok ?s = _ |- context [ok ?s] => rewrite H end;
  trace_red2.

Lemma run_trace_facts (env : RunEnv) (cbs : Callbacks) (t : ExecTask) :
  count is_notify (trace (run env cbs t)) = count is_done (trace (run env cbs t))
  /\ count is_node_done (trace (run env cbs t)) = count is_done (trace (run env cbs t))
  /\ count is_mark_completed (trace (run env cbs t)) = count is_done (trace (run env cbs t))
  /\ (count is_done (trace (run env cbs t)) <= 1)%nat
  /\ count is_propagate (trace (run env cbs t))
     = count is_node_done_ok (trace (run env cbs t))
  /\ (count is_launched (trace (run env cbs t)) <= 1)%nat
  /\ (if existsb is_compute_async (trace (run env cbs t))
      then count is_inline_node_done (trace (run env cbs t)) = 0%nat
           /\ count is_launched (trace (run env cbs t)) = 1%nat
      else count is_inline_node_done (trace (run env cbs t))
             = count is_node_done (trace (run env cbs t))
           /\ count is_executor_finish (trace (run env cbs t)) = 0%nat)
  /\ (existsb is_compute (trace (run env cbs t))
        && bool_decide (kernel_status env = RESOURCE_EXHAUSTED) = true ->
      count is_completion (trace (run env cbs t)) = 0%nat
      /\ (existsb is_sync_compute (trace (run env cbs t)) = true ->
          count is_launched (trace (run env cbs t)) = 0%nat)).
Proof.
  run_paths; trace_norm2; repeat split; try reflexivity; try lia; try discriminate.
Qed.

Ltac state_red :=
  cbn [supportedTypes maxFailures failureTimes cachedUsage rctx ditem op_kernel
       kernel_is_async has_ref_input outputs completed
       set_failureTimes set_cachedUsage set_rctx set_ditem set_op_kernel
       set_kernel_is_async set_has_ref_input set_outputs set_completed
       fst snd andb orb negb] in *.

Lemma run_state_facts (env : RunEnv) (cbs : Callbacks) (t t' : ExecTask) :
  result (run env cbs t) = Ret tt t' ->
  rctx t' = rctx t /\ cachedUsage t' = cachedUsage t /\ ditem t' = ditem t
  /\ maxFailures t' = maxFailures t /\ supportedTypes t' = supportedTypes t
  /\ failureTimes t'
     = failureTimes t
       + (if existsb is_compute (trace (run env cbs t))
             && bool_decide (kernel_status env = RESOURCE_EXHAUSTED)
          then 1 else 0)
  /\ (has_ref_input t = true -> has_ref_input t' = true)
  /\ match op_kernel t with
     | Some k => op_kernel t' = Some k
                 /\ count is_setup (trace (run env cbs t)) = 0%nat
     | None => count is_setup (trace (run env cbs t)) = 1%nat
     end.
Proof.
  run_paths; trace_norm2; intros Hr; try discriminate;
    injection Hr as <-; state_red;
    repeat split; try reflexivity; try lia; try congruence.
Qed.

(** X12.  In every cycle of [run], [num_finished_ops] is notified exactly as
    often as [done] fires, and so are [MaybeMarkCompleted] and [NodeDone]
    called: once in a cycle that completes the node, never in one that does
    not. *)
Theorem notified_exactly_when_done (env : RunEnv) (cbs : Callbacks) (t : ExecTask) :
  count is_notify (trace (run env cbs t)) = count is_done (trace (run env cbs t))
  /\ count is_node_done (trace (run env cbs t)) = count is_done (trace (run env cbs t))
  /\ count is_mark_completed (trace (run env cbs t)) = count is_done (trace (run env cbs t))
  /\ (count is_done (trace (run env cbs t)) <= 1)%nat.
Proof.
  destruct (run_trace_facts env cbs t) as (H1 & H2 & H3 & H4 & _). auto.
Qed.

(** X13.  Outputs are propagated in exactly those cycles that report an OK
    status to [NodeDone]: a cycle that reports an error propagates nothing,
    and no cycle propagates twice. *)
Theorem propagates_exactly_when_ok (env : RunEnv) (cbs : Callbacks) (t : ExecTask) :
  count is_propagate (trace (run env cbs t))
    = count is_node_done_ok (trace (run env cbs t))
  /\ (count is_propagate (trace (run env cbs t)) <= 1)%nat.
Proof.
  destruct (run_trace_facts env cbs t) as (_ & H2 & _ & H4 & H5 & _).
  split; [exact H5|]. rewrite H5.
  assert (Hle : forall tr, (count is_node_done_ok tr <= count is_node_done tr)%nat).
  { induction tr as [|e tr IH]; simpl; [lia|].
    destruct e; simpl; try lia. destruct (ok s); lia. }
  specialize (Hle (trace (run env cbs t))). lia.
Qed.


(** X15.  A cycle whose kernel ran out of memory leaves the node as it was
    for the retry: inputs are not cleared, outputs are neither processed nor
    propagated, the node is not marked completed, [NodeDone] is not called,
    nothing is notified and [done] is not fired; after a synchronous kernel
    not even [launched] is fired. *)
Theorem oom_leaves_node_for_retry (env : RunEnv) (cbs : Callbacks) (t : ExecTask) :
  existsb is_compute (trace (run env cbs t)) = true ->
  kernel_status env = RESOURCE_EXHAUSTED ->
  count is_completion (trace (run env cbs t)) = 0%nat
  /\ (existsb is_sync_compute (trace (run env cbs t)) = true ->
      count is_launched (trace (run env cbs t)) = 0%nat).
Proof.
  intros Hrun Hst.
  destruct (run_trace_facts env cbs t) as (_ & _ & _ & _ & _ & _ & _ & H).
  apply H. rewrite Hrun, Hst. reflexivity.
Qed.

Lemma oom_leaves_node_for_retry_witness :
  count is_completion
    (trace (run (cycle add_kernel false false RESOURCE_EXHAUSTED 0 [false; false])
                (mkCallbacks true) prepared_on_gpu0)) = 0%nat.
Proof.
  assert (H1 : existsb is_compute
                 (trace (run (cycle add_kernel false false RESOURCE_EXHAUSTED 0
                                    [false; false])
                             (mkCallbacks true) prepared_on_gpu0)) = true)
    by (vm_compute; reflexivity).
  exact (proj1 (oom_leaves_node_for_retry
                  (cycle add_kernel false false RESOURCE_EXHAUSTED 0 [false; false])
                  (mkCallbacks true) prepared_on_gpu0 H1 eq_refl)).
Defined.

(** X16.  A cycle of [run] that returns has touched neither the resource
    context nor the cached estimates nor the device item: a
    [releasePreAllocation] after the cycle frees the ticket of the
    [prepare] before it, and an estimate cached before the cycle is still
    cached, also after a memory failure. *)
Theorem run_keeps_reservation_and_cache (env : RunEnv) (cbs : Callbacks)
    (t t' : ExecTask) :
  result (run env cbs t) = Ret tt t' ->
  rctx t' = rctx t /\ cachedUsage t' = cachedUsage t /\ ditem t' = ditem t
  /\ releasePreAllocation t' = ((releasePreAllocation t).1, Ret tt t').
Proof.
  intros Hr.
  destruct (run_state_facts env cbs t t' Hr) as (H1 & H2 & H3 & _).
  repeat split; auto.
  unfold releasePreAllocation, bind, get, emit, ret. cbn [fst snd].
  rewrite H1. destruct (resMon (rctx t)); reflexivity.
Qed.

Lemma run_keeps_reservation_and_cache_witness :
  exists t',
    result (run (cycle add_kernel false false RESOURCE_EXHAUSTED 0 [false; false])
                (mkCallbacks true) prepared_on_gpu0) = Ret tt t'
    /\ rctx t' = ctx_gpu0
    /\ trace (releasePreAllocation t') = [EvMonFree 1 7].
Proof.
  pose proof (run_keeps_reservation_and_cache
                (cycle add_kernel false false RESOURCE_EXHAUSTED 0 [false; false])
                (mkCallbacks true) prepared_on_gpu0 _ eq_refl) as (H1 & _ & _ & H4).
  eexists. split; [reflexivity|]. split; [exact H1|].
  unfold trace. rewrite H4. reflexivity.
Defined.

(** X17.  The failure count moves only by memory failures: a cycle that
    returns has raised it by one when its kernel was run and completed with
    [RESOURCE_EXHAUSTED], and has left it alone otherwise, whatever other
    error the cycle met. *)
Theorem failure_count_counts_oom (env : RunEnv) (cbs : Callbacks) (t t' : ExecTask) :
  result (run env cbs t) = Ret tt t' ->
  (existsb is_compute (trace (run env cbs t)) = true
   /\ kernel_status env = RESOURCE_EXHAUSTED ->
   failureTimes t' = failureTimes t + 1)
  /\ (existsb is_compute (trace (run env cbs t)) = false
      \/ kernel_status env <> RESOURCE_EXHAUSTED ->
      failureTimes t' = failureTimes t).
Proof.
  intros Hr.
  destruct (run_state_facts env cbs t t' Hr) as (_ & _ & _ & _ & _ & H & _).
  split.
  - intros [E1 E2]. rewrite E1, E2 in H. exact H.
  - intros [E|E].
    + rewrite E in H. cbn [andb] in H. lia.
    + rewrite (bool_decide_eq_false_2 _ E), andb_false_r in H. lia.
Qed.

Lemma failure_count_counts_oom_witness :
  exists t',
    result (run (cycle add_kernel false false INTERNAL 0 [false; false])
                (mkCallbacks true) prepared_on_gpu0) = Ret tt t'
    /\ failureTimes t' = failureTimes prepared_on_gpu0.
Proof.
  pose proof (failure_count_counts_oom
                (cycle add_kernel false false INTERNAL 0 [false; false])
                (mkCallbacks true) prepared_on_gpu0 _ eq_refl) as [_ H].
  eexists. split; [reflexivity|]. apply H. right. discriminate.
Defined.

(** X18.  [run] makes a kernel only when the task holds none: with a kernel
    at hand (adopted from the cache by [prepare], or made by an earlier
    cycle) [SetupKernel] is not called and the kernel is kept; without one
    it is called exactly once in the cycle. *)
Theorem kernel_is_made_once (env : RunEnv) (cbs : Callbacks) (t t' : ExecTask) :
  result (run env cbs t) = Ret tt t' ->
  match op_kernel t with
  | Some k => op_kernel t' = Some k
              /\ count is_setup (trace (run env cbs t)) = 0%nat
  | None => count is_setup (trace (run env cbs t)) = 1%nat
  end.
Proof.
  intros Hr. destruct (run_state_facts env cbs t t' Hr) as (_ & _ & _ & _ & _ & _ & _ & H).
  exact H.
Qed.

Lemma kernel_is_made_once_witness :
  exists t',
    result (run (cycle add_kernel false false OK 0 [false; false])
                (mkCallbacks true) prepared_on_gpu0) = Ret tt t'
    /\ count is_setup
         (trace (run (cycle add_kernel false false OK 0 [false; false])
                     (mkCallbacks true) prepared_on_gpu0)) = 1%nat.
Proof.
  eexists. split; [reflexivity|].
  exact (kernel_is_made_once (cycle add_kernel false false OK 0 [false; false])
           (mkCallbacks true) prepared_on_gpu0 _ eq_refl).
Defined.

(** X20.  From [prepare] over [run] to the destructor: a [prepare] that
    finds the node's kernel in the cache, made on the device it is offered,
    adopts it; the cycles that follow do not make another one, and the
    destructor hands exactly this kernel to [deleteKernel]. *)
Theorem adopted_kernel_is_used_and_deleted (penv : PrepareEnv) (ctx : ResourceContext)
    (t : ExecTask) (d : TFDevice) (k : OpKernel) :
  ~ unsupported t ctx ->
  prep_deviceMgr penv (device_name (spec ctx)) = (OK, d) ->
  prep_NDEBUG penv = true \/ resMon ctx <> None ->
  find_kernel penv = (OK, name d, Some k) ->
  name d <> "" ->
  exists t1,
    result (prepare penv ctx t) = Ret true t1
    /\ op_kernel t1 = Some k
    /\ forall renv cbs t2,
         result (run renv cbs t1) = Ret tt t2 ->
         count is_setup (trace (run renv cbs t1)) = 0%nat
         /\ trace (destroy t2) = [EvDeleteKernel k].
Proof.
  intros Hsup Hd Hmon Hfind Hname.
  unfold unsupported in Hsup. rewrite <- none_of_spec in Hsup.
  apply not_true_is_false in Hsup.
  assert (Ha : prep_NDEBUG penv || bool_decide (resMon ctx <> None) = true).
  { destruct Hmon as [->|Hm]; [done|]. rewrite bool_decide_eq_true_2 by done.
    by rewrite orb_true_r. }
  eexists. split; [|split].
  - unfold prepare, LookupDevice. prep_red. rewrite Hsup, Hd. prep_red.
    rewrite !ok_OK. prep_red. unfold assert. rewrite Ha, Hfind. prep_red.
    rewrite ok_OK, (bool_decide_eq_true_2 (Some k <> None)) by done.
    cbn [andb]. rewrite (bool_decide_eq_false_2 (name d = "")) by done.
    rewrite (bool_decide_eq_true_2 (name d = name d)) by done. prep_red.
    reflexivity.
  - reflexivity.
  - intros renv cbs t2 Hr.
    pose proof (run_state_facts renv cbs _ t2 Hr) as (_ & _ & _ & _ & _ & _ & _ & H).
    cbn [op_kernel set_op_kernel] in H. destruct H as [Hk Hc].
    split; [exact Hc|].
    unfold destroy, bind, get, emit, trace. cbn [fst snd]. rewrite Hk. reflexivity.
Qed.

Lemma adopted_kernel_is_used_and_deleted_witness :
  exists t1,
    result (prepare env_same_device ctx_gpu0 (fresh_task 4 0)) = Ret true t1
    /\ op_kernel t1 = Some add_kernel.
Proof.
  destruct (adopted_kernel_is_used_and_deleted env_same_device ctx_gpu0 (fresh_task 4 0)
              (mkTFDevice "/device:GPU:0" "GPU" true) add_kernel)
    as (t1 & H1 & H2 & _).
  - unfold unsupported. simpl. intros H. apply H. apply elem_of_cons. by left.
  - vm_compute. reflexivity.
  - right. simpl. discriminate.
  - reflexivity.
  - simpl. discriminate.
  - exists t1. split; assumption.
Defined.

(** ** sstl::priority_semaphore *)


(** X21.  Strict priority: while a level above [p] has a pending waiter, a
    request at a level [p < kMaxPriority] is refused, whatever amount it
    asks for (none at all included) and however large the count is:
    [try_wait] fails and changes nothing; [wait] puts its caller to sleep,
    counted as pending at its level and at no other, the count untouched. *)
Theorem sem_higher_waiter_blocks (s : priority_semaphore.state) (c : Z) (p i : nat) (n : Z) :
  (p < priority_semaphore.kMaxPriority s)%nat ->
  (i < p)%nat ->
  priority_semaphore.m_pending s !! i = Some n ->
  0 < n ->
  priority_semaphore.try_wait s c p = (s, false)
  /\ exists s' np,
       priority_semaphore.wait_enter s c p = inr s'
       /\ priority_semaphore.m_count s' = priority_semaphore.m_count s
       /\ priority_semaphore.m_pending s !! p = Some np
       /\ priority_semaphore.m_pending s' !! p = Some (to_uint64 (np + 1))
       /\ forall j, j <> p ->
            priority_semaphore.m_pending s' !! j = priority_semaphore.m_pending s !! j.
Proof.
  intros Hp Hi Hl Hn.
  assert (E : priority_semaphore.can_take s c p = false).
  { unfold priority_semaphore.can_take. apply andb_false_iff. left.
    apply not_true_is_false. rewrite forallb_forall. intros H.
    specialize (H n). rewrite negb_true_iff in H.
    assert (Hin : In n (take p (priority_semaphore.m_pending s))).
    { apply list_elem_of_In, list_elem_of_lookup. exists i.
      apply lookup_take_Some. split; [done|lia]. }
    specialize (H Hin). apply Z.ltb_ge in H. lia. }
  unfold priority_semaphore.try_wait, priority_semaphore.wait_enter. rewrite E.
  split; [reflexivity|].
  destruct (lookup_lt_is_Some_2 (priority_semaphore.m_pending s) p Hp) as [np Hnp].
  eexists _, np. split; [reflexivity|]. split; [reflexivity|]. split; [exact Hnp|].
  cbn [priority_semaphore.m_pending]. unfold priority_semaphore.add_pending. split.
  - rewrite list_lookup_alter_eq, Hnp. reflexivity.
  - intros j Hj. by rewrite list_lookup_alter_ne.
Qed.

Lemma sem_higher_waiter_blocks_witness :
  priority_semaphore.try_wait sem_busy 0 2 = (sem_busy, false)
  /\ exists s',
       priority_semaphore.wait_enter sem_busy 0 2 = inr s'
       /\ priority_semaphore.m_pending s' !! 2%nat = Some 1.
Proof.
  destruct (sem_higher_waiter_blocks sem_busy 0 2 0 1
              ltac:(vm_compute; lia) ltac:(lia) eq_refl ltac:(lia))
    as (H1 & s' & np & H2 & _ & H3 & H4 & _).
  split; [exact H1|]. exists s'. split; [exact H2|].
  injection H3 as <-. exact H4.
Defined.



(** X23.  [try_wait] never overdraws: on a valid state, a granted request
    for [c >= 0] leaves exactly [count - c >= 0] and the pending counts as
    they were; a refused one leaves the state untouched. *)
Theorem sem_try_wait_is_exact (s s' : priority_semaphore.state) (c : Z) (p : nat) (b : bool) :
  priority_semaphore.valid s ->
  0 <= c ->
  priority_semaphore.try_wait s c p = (s', b) ->
  priority_semaphore.valid s'
  /\ priority_semaphore.m_pending s' = priority_semaphore.m_pending s
  /\ priority_semaphore.m_count s'
     = priority_semaphore.m_count s - (if b then c else 0).
Proof.
  intros [Hc Hp] Hc0. unfold priority_semaphore.try_wait.
  destruct (priority_semaphore.can_take s c p) eqn:E; intros [= <- <-].
  - unfold priority_semaphore.can_take in E.
    apply andb_true_iff in E as [_ E]. apply Z.leb_le in E.
    assert (Hm : to_uint64 (priority_semaphore.m_count s - c)
                 = priority_semaphore.m_count s - c).
    { unfold to_uint64. apply Z.mod_small. lia. }
    unfold priority_semaphore.valid. cbn. rewrite Hm.
    repeat split; auto; lia.
  - repeat split; auto; lia.
Qed.

Lemma sem_try_wait_is_exact_witness :
  priority_semaphore.m_count (priority_semaphore.try_wait sem_idle 5 1).1 = 0.
Proof.
  assert (Hv : priority_semaphore.valid sem_idle).
  { split; [simpl; lia|]. repeat constructor; lia. }
  destruct (sem_try_wait_is_exact sem_idle _ 5 1 true Hv ltac:(lia) eq_refl)
    as (_ & _ & H).
  exact H.
Defined.

Lemma sem_first_pending_spec (l : list Z) (i : nat) :
  match priority_semaphore.first_pending l i with
  | Some j => exists k n, j = (i + k)%nat /\ l !! k = Some n /\ 0 < n
                /\ forall k' n', (k' < k)%nat -> l !! k' = Some n' -> n' <= 0
  | None => forall k n, l !! k = Some n -> n <= 0
  end.
Proof.
  revert i. induction l as [|n l IH]; intros i; simpl; [done|].
  destruct (Z.ltb_spec 0 n) as [Hn|Hn].
  - exists 0%nat, n. repeat split; [lia | done | intros; lia].
  - specialize (IH (S i)). destruct (priority_semaphore.first_pending l (S i)) as [j|].
    + destruct IH as (k & n0 & -> & Hk & Hn0 & Hmin).
      exists (S k), n0. repeat split; [lia | done | done |].
      intros [|k'] n' Hlt Hl; simpl in Hl; [injection Hl as <-; lia|].
      apply (Hmin k'); [lia | done].
    + intros [|k] n0 Hl; simpl in Hl; [injection Hl as <-; lia|]. by apply (IH k).
Qed.

(** X24.  [post] wakes one queue only, the one of the highest priority
    that has a waiter: the level it notifies has a pending waiter and no
    level above it has one; it notifies nobody exactly when nobody is
    pending.  The pending counts are not changed by [post]. *)
Theorem sem_post_notifies_highest (s : priority_semaphore.state) (c : Z) :
  priority_semaphore.m_pending (priority_semaphore.post s c).1
    = priority_semaphore.m_pending s
  /\ match (priority_semaphore.post s c).2 with
     | Some j => (exists n, priority_semaphore.m_pending s !! j = Some n /\ 0 < n)
                 /\ forall i n, (i < j)%nat ->
                      priority_semaphore.m_pending s !! i = Some n -> n <= 0
     | None => forall i n, priority_semaphore.m_pending s !! i = Some n -> n <= 0
     end.
Proof.
  split; [reflexivity|]. unfold priority_semaphore.post. cbn [snd].
  pose proof (sem_first_pending_spec (priority_semaphore.m_pending s) 0) as H.
  destruct (priority_semaphore.first_pending (priority_semaphore.m_pending s) 0) as [j|].
  - destruct H as (k & n & -> & Hk & Hn & Hmin). simpl. split; eauto.
  - exact H.
Qed.

Lemma sem_valid_alter (l : list Z) (p : nat) (d : Z) :
  Forall (fun n => 0 <= n < 2 ^ 64) l ->
  Forall (fun n => 0 <= n < 2 ^ 64) (priority_semaphore.add_pending l p d).
Proof.
  intros H. unfold priority_semaphore.add_pending.
  apply Forall_alter; [done|]. intros n _ _. unfold to_uint64.
  apply Z.mod_pos_bound. reflexivity.
Qed.



(** X26.  A waiter is not held up by its own entry in the pending count.
    On a valid state with no waiter above level [p < kMaxPriority], a
    [wait(c, p)] that finds the count too small goes to sleep; a [post]
    that brings the count to [c] or more notifies just this level when no
    higher one is pending, and the waiter then leaves with the pending
    counts as they were before it came and the count changed by what was
    posted less what it took. *)
Theorem sem_wait_post_wake (s : priority_semaphore.state) (c c' : Z) (p : nat) (n : Z) :
  priority_semaphore.valid s ->
  priority_semaphore.m_pending s !! p = Some n ->
  n + 1 < 2 ^ 64 ->
  forallb (fun n => negb (0 <? n)) (take p (priority_semaphore.m_pending s)) = true ->
  priority_semaphore.m_count s < c ->
  0 <= c' -> c <= priority_semaphore.m_count s + c' < 2 ^ 64 ->
  exists s1 s2 q s3,
    priority_semaphore.wait_enter s c p = inr s1
    /\ priority_semaphore.post s1 c' = (s2, Some q) /\ (q <= p)%nat
    /\ priority_semaphore.wait_wake s2 c p = Some s3
    /\ priority_semaphore.m_pending s3 = priority_semaphore.m_pending s
    /\ priority_semaphore.m_count s3 = priority_semaphore.m_count s + c' - c.
Proof.
  intros [Hc Hp] Hl Hn Hnone Hlow Hc' Hsum.
  destruct s as [pend cnt]. cbn [priority_semaphore.m_pending priority_semaphore.m_count] in *.
  assert (Hn0 : 0 <= n < 2 ^ 64).
  { rewrite Forall_forall in Hp. apply Hp. apply list_elem_of_lookup. eauto. }
  set (pend1 := priority_semaphore.add_pending pend p 1).
  assert (Hl1 : pend1 !! p = Some (n + 1)).
  { unfold pend1, priority_semaphore.add_pending. rewrite list_lookup_alter_eq, Hl.
    simpl. f_equal. unfold to_uint64. apply Z.mod_small. lia. }
  assert (Htake : take p pend1 = take p pend).
  { unfold pend1, priority_semaphore.add_pending. rewrite take_alter.
    destruct (decide (p < p)%nat); [lia | done]. }
  assert (Hback : priority_semaphore.add_pending pend1 p (-1) = pend).
  { unfold pend1, priority_semaphore.add_pending.
    apply list_eq. intros i. destruct (decide (i = p)) as [->|Hne].
    - rewrite !list_lookup_alter_eq, Hl. simpl. f_equal. unfold to_uint64.
      rewrite (Z.mod_small (n + 1)) by lia. rewrite Z.mod_small by lia. lia.
    - by rewrite !list_lookup_alter_ne. }
  assert (E0 : priority_semaphore.can_take (priority_semaphore.mk pend cnt) c p = false).
  { unfold priority_semaphore.can_take. cbn. rewrite Hnone. cbn.
    apply Z.leb_gt. lia. }
  pose proof (sem_first_pending_spec pend1 0) as Hfp.
  destruct (priority_semaphore.first_pending pend1 0) as [q|] eqn:Hq.
  2:{ specialize (Hfp p (n + 1) Hl1). lia. }
  destruct Hfp as (k & m & -> & Hk & Hm & Hmin). simpl in Hq.
  assert (Hqp : (k <= p)%nat).
  { destruct (decide (k <= p)%nat) as [|Hgt]; [done|].
    specialize (Hmin p (n + 1) ltac:(lia) Hl1). lia. }
  exists (priority_semaphore.mk pend1 cnt),
         (priority_semaphore.mk pend1 (to_uint64 (cnt + c'))), k, 
         (priority_semaphore.mk pend (cnt + c' - c)).
  assert (E1 : to_uint64 (cnt + c') = cnt + c')
    by (unfold to_uint64; apply Z.mod_small; lia).
  split; [unfold priority_semaphore.wait_enter; rewrite E0; reflexivity|].
  split; [unfold priority_semaphore.post; cbn; rewrite Hq; reflexivity|].
  split; [exact Hqp|].
  split; [|split; reflexivity].
  unfold priority_semaphore.wait_wake, priority_semaphore.can_take. cbn.
  rewrite Htake, Hnone, E1. cbn.
  replace (c <=? cnt + c') with true by (symmetry; apply Z.leb_le; lia).
  rewrite Hback. f_equal. f_equal. unfold to_uint64. apply Z.mod_small. lia.
Qed.

Lemma sem_wait_post_wake_witness :
  exists s1 s2 q s3,
    priority_semaphore.wait_enter sem_idle 8 1 = inr s1
    /\ priority_semaphore.post s1 4 = (s2, Some q) /\ (q <= 1)%nat
    /\ priority_semaphore.wait_wake s2 8 1 = Some s3
    /\ priority_semaphore.m_pending s3 = priority_semaphore.m_pending sem_idle
    /\ priority_semaphore.m_count s3 = priority_semaphore.m_count sem_idle + 4 - 8.
Proof.
  apply (sem_wait_post_wake sem_idle 8 4 1 0).
  - split; [simpl; lia|]. repeat constructor; lia.
  - reflexivity.
  - lia.
  - reflexivity.
  - simpl. lia.
  - lia.
  - simpl. lia.
Defined.

(** ** The constructor *)

Lemma translate_types_elem (tftypes : list string) (ty : DeviceType) :
  ty ∈ (translate_types tftypes).2 <-> tf_name ty ∈ tftypes.
Proof.
  induction tftypes as [|tft rest IH]; simpl.
  - rewrite !elem_of_nil. done.
  - destruct (translate_types rest) as [w types]. simpl in IH.
    rewrite elem_of_cons, <- IH.
    destruct (bool_decide (tft = DEVICE_CPU)) eqn:Ec.
    { apply bool_decide_eq_true in Ec as ->. simpl. rewrite elem_of_cons.
      destruct ty; unfold tf_name, DEVICE_CPU, DEVICE_GPU;
        split; intros [H|H]; first [by left | by right | discriminate]. }
    apply bool_decide_eq_false in Ec.
    destruct (bool_decide (tft = DEVICE_GPU)) eqn:Eg.
    { apply bool_decide_eq_true in Eg as ->. simpl. rewrite elem_of_cons.
      destruct ty; unfold tf_name, DEVICE_CPU, DEVICE_GPU;
        split; intros [H|H]; first [by left | by right | discriminate]. }
    apply bool_decide_eq_false in Eg. simpl.
    destruct ty; unfold tf_name in *; split;
      [by right | intros [H|H]; [by symmetry in H | done]
      | by right | intros [H|H]; [by symmetry in H | done]].
Qed.

Lemma precompute_caches (env : EstimateEnv) (to_spec : DeviceType -> DeviceSpec)
    (types : list DeviceType) (t : ExecTask) :
  failureTimes t <= 0 ->
  exists tr t',
    precompute env to_spec types t = (tr, Ret tt t')
    /\ t' = set_cachedUsage (cachedUsage t') t
    /\ (forall dev, is_Some (cachedUsage t !! dev) -> is_Some (cachedUsage t' !! dev))
    /\ (forall ty, ty ∈ types -> is_Some (cachedUsage t' !! to_spec ty)).
Proof.
  revert t. induction types as [|ty rest IH]; intros t Hk.
  - exists [], t. split; [reflexivity|]. split; [by destruct t|].
    split; [done|]. intros ty Hin. by apply elem_of_nil in Hin.
  - destruct (estimatedUsage_caches env (to_spec ty) t Hk) as (r & t1 & Hr & Hf & Hc).
    destruct (estimatedUsage_effect env (to_spec ty) t r t1 Hr) as (_ & Hother & Hsame).
    destruct (IH t1) as (tr2 & t2 & Hrun & Hsame2 & Hkeep & Hall); [lia|].
    destruct (estimatedUsage env (to_spec ty) t) as [tr1 res1] eqn:Eest.
    unfold result in Hr. cbn [snd] in Hr. subst res1.
    exists (tr1 ++ tr2), t2. split; [|split; [|split]].
    + cbn [precompute]. unfold bind. rewrite Eest, Hrun. reflexivity.
    + rewrite Hsame2 at 1. rewrite Hsame. reflexivity.
    + intros dev Hd. apply Hkeep.
      destruct (decide (dev = to_spec ty)) as [->|Hne]; [by rewrite Hc|].
      by rewrite Hother.
    + intros ty' [->|Hin]%elem_of_cons; [|by apply Hall].
      apply Hkeep. by rewrite Hc.
Qed.

(** X27.  The constructor keeps, of the device types TensorFlow reports for
    the node, those named CPU and GPU, and computes the estimate of each of
    them in advance: after it, and while the task has not failed,
    [estimatedUsage] for any supported type is answered from the cache
    without consulting a collaborator.  (The failure count starts at 0.) *)
Theorem constructor_precomputes (query : Status * list string) (env : EstimateEnv)
    (to_spec : DeviceType -> DeviceSpec) (maxFailures' : Z) (t0 : ExecTask) :
  failureTimes t0 = 0 ->
  exists t,
    result (construct query env to_spec maxFailures' t0).2 = Ret tt t
    /\ maxFailures t = maxFailures'
    /\ (forall ty, ty ∈ supportedTypes t <-> tf_name ty ∈ query.2)
    /\ (forall ty, ty ∈ supportedTypes t ->
          exists r, forall env',
            estimatedUsage env' (to_spec ty) t = ([], Ret r t)).
Proof.
  intros Hk. destruct query as [s tftypes]. unfold construct.
  pose proof (translate_types_elem tftypes) as Helem.
  destruct (translate_types tftypes) as [w types]. cbn [fst snd] in *.
  set (t1 := set_supportedTypes types _).
  destruct (precompute_caches env to_spec types t1) as (tr & t & Hrun & Hsame & _ & Hall).
  { unfold t1. cbn. lia. }
  exists t. rewrite Hrun. unfold result. cbn [snd].
  assert (Hst : supportedTypes t = types) by (rewrite Hsame; reflexivity).
  assert (Hft : failureTimes t = 0) by (rewrite Hsame; cbn; exact Hk).
  split; [reflexivity|]. split; [rewrite Hsame; reflexivity|].
  split; [intros ty; rewrite Hst; apply Helem|].
  intros ty Hin. rewrite Hst in Hin. destruct (Hall ty Hin) as [r Hr].
  exists r. intros env'. apply estimatedUsage_cached; [lia | exact Hr].
Qed.

Lemma constructor_precomputes_witness :
  exists t,
    result (construct (OK, ["GPU"; "TPU"; "CPU"]) env_S1
              (fun ty => mkDeviceSpec ty 0) 4 (fresh_task 0 0)).2 = Ret tt t
    /\ maxFailures t = 4.
Proof.
  destruct (constructor_precomputes (OK, ["GPU"; "TPU"; "CPU"]) env_S1
              (fun ty => mkDeviceSpec ty 0) 4 (fresh_task 0 0) eq_refl)
    as (t & H1 & H2 & _).
  exists t. split; assumption.
Defined.

Example construct_drops_unknown_types :
  (construct (OK, ["GPU"; "TPU"; "CPU"]) env_S1
     (fun ty => mkDeviceSpec ty 0) 4 (fresh_task 0 0)).1 = [UnknownTfDeviceType "TPU"].
Proof. reflexivity. Qed.
